(** * python_rucaptcha.image_captcha: input resolution, payload encoding,
      local image cache and teardown

    A shallow embedding of [src/python_rucaptcha/image_captcha.py].  The
    methods of [ImageCaptcha] are functions in a state-and-exception monad
    over one record that holds the object's attributes together with the
    part of the outside world the methods touch (the disk, the stream of
    random UUIDs and a ghost trace of every external call).  The inherited
    [BaseCaptcha] methods (remote fetch and submission) are not part of
    this module and are taken as parameters. *)

From Stdlib Require Import ZArith NArith Lia Strings.Byte String Ascii List.
From stdpp Require Import base option list gmap strings.

Open Scope string_scope.

(** ** Python values used by the module *)

Abbreviation bytes := (list byte).

(** [**kwargs]: keyword options passed through to the collaborators. *)
Abbreviation Kwargs := (list (string * string)).

(** Exceptions the modelled calls can raise.  [KeyboardInterrupt] and
    [CancelledError] derive from [BaseException] only, so that an
    [except Exception] clause does not catch them. *)
Inductive exn : Type :=
| FileNotFoundError (path : string)
| IsADirectoryError (path : string)
| NotADirectoryError (path : string)
| FileExistsError (path : string)
| OSError (path : string)
| ConnectionError (msg : string)
| Timeout (msg : string)
| KeyboardInterrupt
| CancelledError.

Definition isinstance_Exception (e : exn) : bool :=
  match e with
  | KeyboardInterrupt | CancelledError => false
  | _ => true
  end.

Inductive pyval : Type :=
| PyNone
| PyBool (b : bool)
| PyStr (s : string)
| PyExc (e : exn).

Definition is_None (v : pyval) : bool :=
  match v with
  | PyNone => true
  | _ => false
  end.

(** The mapping a handler returns. *)
Abbreviation pydict := (gmap string pyval).

(** Truthiness of an [Optional[str]] / [Optional[bytes]] argument:
    [None] and the empty value are false. *)
Definition truthy_str (a : option string) : option string :=
  match a with
  | Some s => if String.eqb s "" then None else Some s
  | None => None
  end.

Definition truthy_bytes (a : option bytes) : option bytes :=
  match a with
  | Some [] => None
  | Some b => Some b
  | None => None
  end.

(** ** base64 (RFC 4648, standard alphabet, with padding) *)

Module Base64.

Definition alphabet : string :=
  "ABCDEFGHIJKLMNOPQRSTUVWXYZabcdefghijklmnopqrstuvwxyz0123456789+/".

Definition pad : ascii := "="%char.

Definition sextet_char (n : N) : ascii :=
  match String.get (N.to_nat n) alphabet with
  | Some c => c
  | None => pad
  end.

Definition char_sextet (c : ascii) : option N :=
  let n := N_of_ascii c in
  if ((65 <=? n) && (n <=? 90))%N then Some (n - 65)%N
  else if ((97 <=? n) && (n <=? 122))%N then Some (n - 71)%N
  else if ((48 <=? n) && (n <=? 57))%N then Some (n + 4)%N
  else if (n =? 43)%N then Some 62%N
  else if (n =? 47)%N then Some 63%N
  else None.

(** [base64.b64encode(bs).decode("utf-8")]: the encoder emits ASCII
    only, so the decoding to [str] keeps every code unit. *)
Fixpoint b64encode (bs : bytes) : string :=
  match bs with
  | [] => ""
  | [b0] =>
      let n := Byte.to_N b0 in
      String (sextet_char (n / 4))
        (String (sextet_char ((n mod 4) * 16))
           (String pad (String pad "")))
  | [b0; b1] =>
      let n := Byte.to_N b0 in
      let m := Byte.to_N b1 in
      String (sextet_char (n / 4))
        (String (sextet_char ((n mod 4) * 16 + m / 16))
           (String (sextet_char ((m mod 16) * 4)) (String pad "")))
  | b0 :: b1 :: b2 :: rest =>
      let n := Byte.to_N b0 in
      let m := Byte.to_N b1 in
      let k := Byte.to_N b2 in
      String (sextet_char (n / 4))
        (String (sextet_char ((n mod 4) * 16 + m / 16))
           (String (sextet_char ((m mod 16) * 4 + k / 64))
              (String (sextet_char (k mod 64)) (b64encode rest))))
  end%N.

(** One group of four characters: three bytes, or fewer when padded. *)
Definition quad (c0 c1 c2 c3 : ascii) : option bytes :=
  i0 ← char_sextet c0;
  i1 ← char_sextet c1;
  b0 ← Byte.of_N (i0 * 4 + i1 / 16)%N;
  if Ascii.eqb c2 pad then
    if Ascii.eqb c3 pad then Some [b0] else None
  else
    i2 ← char_sextet c2;
    b1 ← Byte.of_N ((i1 mod 16) * 16 + i2 / 4)%N;
    if Ascii.eqb c3 pad then Some [b0; b1]
    else
      i3 ← char_sextet c3;
      b2 ← Byte.of_N ((i2 mod 4) * 64 + i3)%N;
      Some [b0; b1; b2].

(** Strict decoder: groups of four, padding only in the last group. *)
Fixpoint b64decode (s : string) : option bytes :=
  match s with
  | "" => Some []
  | String c0 (String c1 (String c2 (String c3 rest))) =>
      chunk ← quad c0 c1 c2 c3;
      match rest with
      | "" => Some chunk
      | _ =>
          if Nat.eqb (List.length chunk) 3
          then tl ← b64decode rest; Some (chunk ++ tl)%list
          else None
      end
  | _ => None
  end.

End Base64.

(** ** UUIDs and generated file names *)

(** The sixteen bytes of a [uuid.UUID]. *)
Inductive UUID : Type :=
| mkUUID (b0 b1 b2 b3 b4 b5 b6 b7 b8 b9 b10 b11 b12 b13 b14 b15 : byte).

Definition hex_digit (n : N) : ascii :=
  match String.get (N.to_nat n) "0123456789abcdef" with
  | Some c => c
  | None => "0"%char
  end.

Definition hex_byte (b : byte) (tail : string) : string :=
  String (hex_digit (Byte.to_N b / 16)) (String (hex_digit (Byte.to_N b mod 16)) tail).

(** [str(u)]: thirty-two lower-case hex digits in groups 8-4-4-4-12. *)
Definition uuid_str (u : UUID) : string :=
  match u with
  | mkUUID b0 b1 b2 b3 b4 b5 b6 b7 b8 b9 b10 b11 b12 b13 b14 b15 =>
      hex_byte b0 (hex_byte b1 (hex_byte b2 (hex_byte b3 (String "-"%char
      (hex_byte b4 (hex_byte b5 (String "-"%char
      (hex_byte b6 (hex_byte b7 (String "-"%char
      (hex_byte b8 (hex_byte b9 (String "-"%char
      (hex_byte b10 (hex_byte b11 (hex_byte b12
      (hex_byte b13 (hex_byte b14 (hex_byte b15 "")))))))))))))))))))
  end.

(** [f"im-{u}.png"] *)
Definition image_name (u : UUID) : string :=
  "im-" ++ uuid_str u ++ ".png".

(** ** Paths and the disk *)

Inductive node : Type :=
| Dir
| File (content : bytes).

(** The disk: the nodes that exist, keyed by their path components.  The
    working directory of the process is the root directory (key [[]]),
    which always exists, so that a relative and an absolute spelling name
    the same node; symbolic links, permissions and the limits on names
    (their length, the NUL character) are not modelled. *)
Abbreviation FS := (gmap (list string) node).

Fixpoint split_slash (s : string) : list string :=
  match s with
  | "" => [""]
  | String c s' =>
      if Ascii.eqb c "/" then "" :: split_slash s'
      else match split_slash s' with
           | seg :: segs => String c seg :: segs
           | [] => [String c ""]
           end
  end.

Definition real_component (seg : string) : bool :=
  negb (String.eqb seg "") && negb (String.eqb seg ".").

(** [Path(p).parts], the components [pathlib] keeps of a path: empty and
    [.] segments are dropped, every other segment ([..] too) is kept as it
    is written. *)
Definition parts (p : string) : list string :=
  List.filter real_component (split_slash p).

Fixpoint last_char (s : string) : option ascii :=
  match s with
  | "" => None
  | String c "" => Some c
  | String _ s' => last_char s'
  end.

Definition starts_with_slash (s : string) : bool :=
  match s with
  | String c _ => Ascii.eqb c "/"
  | "" => false
  end.

Definition ends_with_slash (s : string) : bool :=
  match last_char s with
  | Some c => Ascii.eqb c "/"
  | None => false
  end.

Fixpoint no_slash (s : string) : bool :=
  match s with
  | "" => true
  | String c s' => negb (Ascii.eqb c "/") && no_slash s'
  end.

(** [os.path.join(a, b)] (posixpath). *)
Definition os_path_join (a b : string) : string :=
  if starts_with_slash b then b
  else if String.eqb a "" || ends_with_slash a then a ++ b
  else a ++ "/" ++ b.

Definition is_dir (f : FS) (k : list string) : bool :=
  match k with
  | [] => true
  | _ => match f !! k with
         | Some Dir => true
         | _ => false
         end
  end.

(** *** Path resolution by the operating system

    [open], [lstat] and [rmdir] resolve a path one segment at a time from
    the working directory: an empty segment (a doubled or trailing slash)
    and [.] stay where they are, [..] steps to the parent (the root is its
    own parent), a name steps down.  Every segment but the last must lead
    to a directory; a regular file followed by anything, a trailing slash
    included, is [ENOTDIR], a missing name is [ENOENT]. *)

(** How a path ends, as [rmdir] classifies it: no name at all (the root),
    [.], [..] or an ordinary name. *)
Inductive last_type : Type := LastRoot | LastDot | LastDotDot | LastNorm.

Inductive resolved : Type :=
| Found (k : list string) (last : last_type)
| FoundFile (k : list string) (c : bytes)
| ENOTDIR
| ENOENT.

Fixpoint walk (f : FS) (cur : list string) (last : last_type)
    (segs : list string) : resolved :=
  match segs with
  | [] => Found cur last
  | seg :: rest =>
      if String.eqb seg "" then walk f cur last rest
      else if String.eqb seg "." then walk f cur LastDot rest
      else if String.eqb seg ".." then walk f (removelast cur) LastDotDot rest
      else
        let cur' := (cur ++ [seg])%list in
        match f !! cur' with
        | Some Dir => walk f cur' LastNorm rest
        | Some (File c) =>
            match rest with
            | [] => FoundFile cur' c
            | _ => ENOTDIR
            end
        | None => ENOENT
        end
  end.

(** The empty path names nothing. *)
Definition resolve (f : FS) (p : string) : resolved :=
  if String.eqb p "" then ENOENT else walk f [] LastRoot (split_slash p).

(** [os.path.exists(p)] *)
Definition os_path_exists (f : FS) (p : string) : bool :=
  match resolve f p with
  | Found _ _ | FoundFile _ _ => true
  | ENOTDIR | ENOENT => false
  end.

(** Whether a path has a [..] segment. *)
Definition has_dotdot (p : string) : bool :=
  existsb (String.eqb "..") (split_slash p).

(** How a path ends, read off its segments alone. *)
Fixpoint last_kind (last : last_type) (segs : list string) : last_type :=
  match segs with
  | [] => last
  | seg :: rest =>
      if String.eqb seg "" then last_kind last rest
      else if String.eqb seg "." then last_kind LastDot rest
      else if String.eqb seg ".." then last_kind LastDotDot rest
      else last_kind LastNorm rest
  end.

(** A path that ends in an ordinary name (trailing slashes apart) and has
    no [..] segment. *)
Definition names_directly (p : string) : bool :=
  negb (has_dotdot p) &&
  match last_kind LastRoot (split_slash p) with
  | LastNorm => true
  | _ => false
  end.

(** The keys strictly below [k]. *)
Definition below (k k' : list string) : Prop := k `prefix_of` k' /\ k' <> k.

#[global] Instance below_dec k k' : Decision (below k k').
Proof. unfold below. apply _. Defined.

(** ** External calls, recorded in a ghost trace *)

Inductive event : Type :=
| EvOpenRead (path : string)
| EvMkdir (path : string)
| EvUuid4
| EvOpenWrite (path : string) (content : bytes)
| EvRmtree (path : string)
| EvFetch (url : string) (kwargs : Kwargs)
| EvSubmit.

(** ** The result model and the enumeration of save formats *)

(** Modelled from the spec: the declaration of the result model
    ([self.result], defined with the base class outside [src/]) is missing;
    the spec gives it an optional solved value, an optional task identifier,
    an error flag and an optional error detail, and the docstrings of the
    module name the four keys.  An unset optional field holds [PyNone]. *)
Record ResponseSer : Type := mkResponseSer {
  captchaSolve : pyval;
  taskId : pyval;
  error : bool;
  errorBody : pyval
}.

Definition fields (r : ResponseSer) : list (string * pyval) :=
  [("captchaSolve", captchaSolve r); ("taskId", taskId r);
   ("error", PyBool (error r)); ("errorBody", errorBody r)].

(** [r.dict(exclude_none=...)] *)
Definition dict (exclude_none : bool) (r : ResponseSer) : pydict :=
  list_to_map
    (if exclude_none
     then List.filter (fun kv => negb (is_None (snd kv))) (fields r)
     else fields r).

(** Modelled from the spec: the enumeration [SaveFormatsEnm] is declared
    outside [src/]; the constructor's docstring gives its two values,
    ['temp'] (temporary) and ['const'] (persistent). *)
Module SaveFormatsEnm.
Definition TEMP : string := "temp".
Definition CONST : string := "const".
End SaveFormatsEnm.

(** ** The object and its world *)

Record State : Type := mkState {
  (* attributes of the [ImageCaptcha] instance *)
  save_format : string;
  img_clearing : bool;
  img_path : string;
  _image_name : option string;
  post_payload : gmap string string;
  result : ResponseSer;
  (* the world *)
  fs : FS;
  uuid_stream : nat -> UUID;
  uuid_drawn : nat;
  trace : list event
}.

Definition set__image_name (v : option string) (st : State) : State :=
  mkState (save_format st) (img_clearing st) (img_path st) v
    (post_payload st) (result st) (fs st) (uuid_stream st) (uuid_drawn st)
    (trace st).

Definition set_post_payload (v : gmap string string) (st : State) : State :=
  mkState (save_format st) (img_clearing st) (img_path st) (_image_name st)
    v (result st) (fs st) (uuid_stream st) (uuid_drawn st) (trace st).

Definition set_result (v : ResponseSer) (st : State) : State :=
  mkState (save_format st) (img_clearing st) (img_path st) (_image_name st)
    (post_payload st) v (fs st) (uuid_stream st) (uuid_drawn st) (trace st).

Definition set_fs (v : FS) (st : State) : State :=
  mkState (save_format st) (img_clearing st) (img_path st) (_image_name st)
    (post_payload st) (result st) v (uuid_stream st) (uuid_drawn st)
    (trace st).

Definition set_uuid_drawn (v : nat) (st : State) : State :=
  mkState (save_format st) (img_clearing st) (img_path st) (_image_name st)
    (post_payload st) (result st) (fs st) (uuid_stream st) v (trace st).

Definition log_event (e : event) (st : State) : State :=
  mkState (save_format st) (img_clearing st) (img_path st) (_image_name st)
    (post_payload st) (result st) (fs st) (uuid_stream st) (uuid_drawn st)
    (trace st ++ [e]).

(** ** The monad of methods: state passing with exceptions *)

Inductive outcome (A : Type) : Type :=
| Return (a : A)
| Raise (e : exn).
Arguments Return {A} a.
Arguments Raise {A} e.

Definition M (A : Type) : Type := State -> outcome A * State.

Definition ret {A} (a : A) : M A := fun st => (Return a, st).

Definition raise {A} (e : exn) : M A := fun st => (Raise e, st).

Definition bind {A B} (m : M A) (k : A -> M B) : M B :=
  fun st =>
    match m st with
    | (Return a, st') => k a st'
    | (Raise e, st') => (Raise e, st')
    end.

#[global] Instance M_ret : MRet M := @ret.
#[global] Instance M_bind : MBind M := fun A B k m => bind m k.

(** [try: x = body / except Exception as error: handler(error)], followed
    by [rest(x)] when the body raised nothing. *)
Definition try_except_Exception {A B} (body : M A) (handler : exn -> M B)
    (rest : A -> M B) : M B :=
  fun st =>
    match body st with
    | (Return a, st') => rest a st'
    | (Raise e, st') =>
        if isinstance_Exception e then handler e st' else (Raise e, st')
    end.

Definition get {A} (proj : State -> A) : M A := fun st => (Return (proj st), st).

Definition modify (f : State -> State) : M unit := fun st => (Return tt, f st).

(** ** Library calls made by the module *)

(** The walk of [Path(p).mkdir(parents=True, exist_ok=True)]: from the
    working directory down the components [pathlib] keeps of [p], a
    missing directory is created, an existing one is accepted, and a
    regular file in the way makes the call fail ([FileExistsError] at the
    last component, [NotADirectoryError] above it). *)
Fixpoint mkdir_parents (p : string) (cur todo : list string) (f : FS)
    : option exn * FS :=
  match todo with
  | [] => (None, f)
  | seg :: rest =>
      let cur' := (cur ++ [seg])%list in
      match f !! cur' with
      | None => mkdir_parents p cur' rest (<[cur' := Dir]> f)
      | Some Dir => mkdir_parents p cur' rest f
      | Some (File _) =>
          (Some (match rest with
                 | [] => FileExistsError p
                 | _ => NotADirectoryError p
                 end), f)
      end
  end.

Definition Path_mkdir (p : string) : M unit :=
  fun st =>
    let st1 := log_event (EvMkdir p) st in
    match mkdir_parents p [] (parts p) (fs st1) with
    | (None, f') => (Return tt, set_fs f' st1)
    | (Some e, f') => (Raise e, set_fs f' st1)
    end.

(** [with open(p, "rb") as file: return file.read()] *)
Definition open_rb_read (p : string) : M bytes :=
  fun st =>
    let st1 := log_event (EvOpenRead p) st in
    match resolve (fs st1) p with
    | FoundFile _ c => (Return c, st1)
    | Found _ _ => (Raise (IsADirectoryError p), st1)
    | ENOTDIR => (Raise (NotADirectoryError p), st1)
    | ENOENT => (Raise (FileNotFoundError p), st1)
    end.

(** [with open(p, "wb") as out: out.write(content)]: the file is created
    or truncated; its directory must exist. *)
Definition open_wb_write (p : string) (content : bytes) : M unit :=
  fun st =>
    let st1 := log_event (EvOpenWrite p content) st in
    if String.eqb p "" then (Raise (FileNotFoundError p), st1)
    else
      match parts p with
      | [] => (Raise (IsADirectoryError p), st1)
      | k =>
          if is_dir (fs st1) (removelast k) then
            match fs st1 !! k with
            | Some Dir => (Raise (IsADirectoryError p), st1)
            | _ => (Return tt, set_fs (<[k := File content]> (fs st1)) st1)
            end
          else
            match fs st1 !! removelast k with
            | Some (File _) => (Raise (NotADirectoryError p), st1)
            | _ => (Raise (FileNotFoundError p), st1)
            end
      end.

(** [os.rmdir(p)]: the path must name an empty directory by an ordinary
    last component; [.] is refused with [EINVAL], [..] with [ENOTEMPTY],
    the root with [EBUSY], a directory with entries with [ENOTEMPTY] (all
    plain [OSError]s). *)
Definition os_rmdir (p : string) (f : FS) : exn + FS :=
  match resolve f p with
  | ENOENT => inl (FileNotFoundError p)
  | ENOTDIR | FoundFile _ _ => inl (NotADirectoryError p)
  | Found k LastNorm =>
      if Nat.eqb (size (filter (fun kv => below k kv.1) f)) 0
      then inr (delete k f)
      else inl (OSError p)
  | Found _ _ => inl (OSError p)
  end.

(** [shutil.rmtree(p)]: [lstat] on the path, then everything below the
    directory is unlinked through its descriptor, then [os.rmdir(p)]
    resolves the path once more and removes the emptied directory.  A
    missing path raises [FileNotFoundError]; a regular file, or a path that
    runs through one, raises [NotADirectoryError]; when the final [rmdir]
    is refused the directory stays, emptied. *)
Definition shutil_rmtree (p : string) : M unit :=
  fun st =>
    let st1 := log_event (EvRmtree p) st in
    match resolve (fs st1) p with
    | ENOENT => (Raise (FileNotFoundError p), st1)
    | ENOTDIR | FoundFile _ _ => (Raise (NotADirectoryError p), st1)
    | Found k _ =>
        let emptied := filter (fun kv => ¬ below k kv.1) (fs st1) in
        match os_rmdir p emptied with
        | inr f' => (Return tt, set_fs f' st1)
        | inl e => (Raise e, set_fs emptied st1)
        end
    end.

(** [uuid.uuid4()]: the next value of the random stream. *)
Definition uuid_uuid4 : M UUID :=
  fun st =>
    (Return (uuid_stream st (uuid_drawn st)),
     set_uuid_drawn (S (uuid_drawn st)) (log_event EvUuid4 st)).

(** ** class ImageCaptcha *)

Definition NO_CAPTCHA_ERR : string :=
  "You did not send any file, local link or URL.".

Definition set_error (b : bool) (r : ResponseSer) : ResponseSer :=
  mkResponseSer (captchaSolve r) (taskId r) b (errorBody r).

Definition set_errorBody (v : pyval) (r : ResponseSer) : ResponseSer :=
  mkResponseSer (captchaSolve r) (taskId r) (error r) v.

(** [self.result.error = b] *)
Definition result_set_error (b : bool) : M unit :=
  modify (fun st => set_result (set_error b (result st)) st).

(** [self.result.errorBody = v] *)
Definition result_set_errorBody (v : pyval) : M unit :=
  modify (fun st => set_result (set_errorBody v (result st)) st).

(** [self.result.dict(exclude_none=...)] *)
Definition result_dict (exclude_none : bool) : M pydict :=
  r ← get result; mret (dict exclude_none r).

(** [self.post_payload.update({key: value})] *)
Definition post_payload_update (key value : string) : M unit :=
  modify (fun st => set_post_payload (<[key := value]> (post_payload st)) st).

(** [__init__]: the base class has initialised the object (payload,
    result); the three arguments are then stored.  The attribute
    [_image_name] is not created here. *)
Definition __init__ (save_format : string) (img_clearing : bool)
    (img_path : string) : M unit :=
  modify (fun base =>
    mkState save_format img_clearing img_path (_image_name base)
      (post_payload base) (result base) (fs base) (uuid_stream base)
      (uuid_drawn base) (trace base)).

(** The default arguments of [__init__]. *)
Definition __init__defaults : M unit :=
  __init__ SaveFormatsEnm.TEMP true "PythonRuCaptchaImages".

Definition _image_const_saver (content : bytes) (img_path : string) : M unit :=
  Path_mkdir img_path;;
  (* generate image name *)
  u ← uuid_uuid4;
  let name := image_name u in
  modify (set__image_name (Some name));;
  (* save image to folder *)
  open_wb_write (os_path_join img_path name) content.

Definition _local_image_captcha (captcha_file : string) : M bytes :=
  open_rb_read captcha_file.

Section Handlers.

(** The methods inherited from [BaseCaptcha].  A fetch method reads the
    state and gives the body of the response or raises; a submission
    method reads and updates the state and gives the mapping it returns
    or raises.  Nothing else is assumed about them. *)
Variable BaseCaptcha_url_open : string -> Kwargs -> State -> outcome bytes.
Variable BaseCaptcha_aio_url_read : string -> Kwargs -> State -> outcome bytes.
Variable BaseCaptcha__processing_response :
  Kwargs -> State -> outcome pydict * State.
Variable BaseCaptcha__aio_processing_response :
  State -> outcome pydict * State.

(** [self.url_open(url=url, **kwargs).content] *)
Definition url_open (url : string) (kwargs : Kwargs) : M bytes :=
  fun st => (BaseCaptcha_url_open url kwargs st,
             log_event (EvFetch url kwargs) st).

(** [await self.aio_url_read(url=url, **kwargs)] *)
Definition aio_url_read (url : string) (kwargs : Kwargs) : M bytes :=
  fun st => (BaseCaptcha_aio_url_read url kwargs st,
             log_event (EvFetch url kwargs) st).

(** [self._processing_response] called with the keyword options *)
Definition _processing_response (kwargs : Kwargs) : M pydict :=
  fun st => BaseCaptcha__processing_response kwargs (log_event EvSubmit st).

(** [await self._aio_processing_response()] *)
Definition _aio_processing_response : M pydict :=
  fun st => BaseCaptcha__aio_processing_response (log_event EvSubmit st).

Definition captcha_handler (captcha_link captcha_file : option string)
    (captcha_base64 : option bytes) (kwargs : Kwargs) : M pydict :=
  match truthy_str captcha_file with
  | Some file =>
      (* if a local file link is passed *)
      content ← _local_image_captcha file;
      post_payload_update "body" (Base64.b64encode content);;
      _processing_response kwargs
  | None =>
      match truthy_bytes captcha_base64 with
      | Some b64 =>
          (* if the file is transferred in base64 encoding *)
          post_payload_update "body" (Base64.b64encode b64);;
          _processing_response kwargs
      | None =>
          match truthy_str captcha_link with
          | Some link =>
              (* if a URL is passed *)
              try_except_Exception (url_open link kwargs)
                (fun error =>
                   result_set_error true;;
                   result_set_errorBody (PyExc error);;
                   result_dict true)
                (fun content =>
                   fmt ← get save_format;
                   (if String.eqb fmt SaveFormatsEnm.CONST
                    then dir ← get img_path; _image_const_saver content dir
                    else mret tt);;
                   post_payload_update "body" (Base64.b64encode content);;
                   _processing_response kwargs)
          | None =>
              (* if none of the parameters are passed *)
              result_set_error true;;
              result_set_errorBody (PyStr NO_CAPTCHA_ERR);;
              result_dict false
          end
      end
  end.

Definition aio_captcha_handler (captcha_link captcha_file : option string)
    (captcha_base64 : option bytes) (kwargs : Kwargs) : M pydict :=
  match truthy_str captcha_file with
  | Some file =>
      content ← _local_image_captcha file;
      post_payload_update "body" (Base64.b64encode content);;
      _aio_processing_response
  | None =>
      match truthy_bytes captcha_base64 with
      | Some b64 =>
          post_payload_update "body" (Base64.b64encode b64);;
          _aio_processing_response
      | None =>
          match truthy_str captcha_link with
          | Some link =>
              try_except_Exception (aio_url_read link kwargs)
                (fun error =>
                   result_set_error true;;
                   result_set_errorBody (PyExc error);;
                   result_dict true)
                (fun content =>
                   fmt ← get save_format;
                   (if String.eqb fmt SaveFormatsEnm.CONST
                    then dir ← get img_path; _image_const_saver content dir
                    else mret tt);;
                   post_payload_update "body" (Base64.b64encode content);;
                   _aio_processing_response)
          | None =>
              result_set_error true;;
              result_set_errorBody (PyStr NO_CAPTCHA_ERR);;
              result_dict false
          end
      end
  end.

End Handlers.

Definition __del__ : M unit :=
  fun st =>
    if String.eqb (save_format st) SaveFormatsEnm.CONST && img_clearing st
    then shutil_rmtree (img_path st) st
    else (Return tt, st).

(** The state [_image_const_saver] leaves when directory creation gave the
    disk [f'] and the new file could be written. *)
Definition saved (content : bytes) (dir : string) (f' : FS) (st : State) : State :=
  let name := image_name (uuid_stream st (uuid_drawn st)) in
  set_fs (<[(parts dir ++ [name])%list := File content]> f')
    (log_event (EvOpenWrite (os_path_join dir name) content)
       (set__image_name (Some name)
          (set_uuid_drawn (S (uuid_drawn st))
             (log_event EvUuid4 (log_event (EvMkdir dir) st))))).

(** ** Concrete objects, disks and collaborators *)

Module Examples.

Definition uuids (n : nat) : UUID :=
  let b := default x00 (Byte.of_N (N.of_nat n mod 256)) in
  mkUUID xde xad xbe xef x00 x01 x40 x02 x80 x03 x00 x00 x00 x00 x00 b.

Definition fresh_result : ResponseSer :=
  mkResponseSer PyNone PyNone false PyNone.

Definition png : bytes := [x89; x50; x4e; x47].

(** A disk holding one image file and an unrelated directory. *)
Definition disk : FS :=
  <[ ["examples"; "088636.png"] := File png ]>
    (<[ ["examples"] := Dir ]> (<[ ["other"] := Dir ]> ∅)).

Definition base_payload : gmap string string :=
  <[ "key" := "aa9011f31111181111168611f1151122" ]>
    (<[ "method" := "base64" ]> ∅).

Definition obj (fmt : string) (clearing : bool) (f : FS) : State :=
  mkState fmt clearing "PythonRuCaptchaImages" None base_payload
    fresh_result f uuids 0 [].

Definition obj_temp : State := obj SaveFormatsEnm.TEMP true disk.
Definition obj_const : State := obj SaveFormatsEnm.CONST true disk.

(** A disk on which the storage directory already holds an image. *)
Definition disk_cached : FS :=
  <[ ["PythonRuCaptchaImages"; "old.png"] := File png ]>
    (<[ ["PythonRuCaptchaImages"] := Dir ]> disk).

Definition fetch_ok (url : string) (kwargs : Kwargs) (st : State)
    : outcome bytes := Return png.

Definition fetch_fail (url : string) (kwargs : Kwargs) (st : State)
    : outcome bytes := Raise (ConnectionError "bad.invalid").

Definition solved : ResponseSer :=
  mkResponseSer (PyStr "W9H5K") (PyStr "73043008354") false PyNone.

Definition submit (kwargs : Kwargs) (st : State) : outcome pydict * State :=
  (Return (dict false solved), set_result solved st).

Definition aio_submit (st : State) : outcome pydict * State :=
  (Return (dict false solved), set_result solved st).

Definition link : string :=
  "https://rucaptcha.com/dist/web/99581b9d446a509a0a01954438a5e36a.jpg".

Definition options : Kwargs := [("timeout", "10")].

Definition image_file : string := "examples/088636.png".

Definition connection_error : exn := ConnectionError "bad.invalid".

(** The object of [obj_const] after the storage directory was filled. *)
Definition obj_cached : State := obj SaveFormatsEnm.CONST true disk_cached.

(** A persistent object whose storage directory is two levels down. *)
Definition obj_nested : State :=
  mkState SaveFormatsEnm.CONST true "cache/images/" None base_payload
    fresh_result disk uuids 0 [].

(** A persistent object whose storage path is taken by a regular file. *)
Definition obj_blocked : State :=
  obj SaveFormatsEnm.CONST true (<[ ["PythonRuCaptchaImages"] := File png ]> disk).

(** A persistent object with the storage path [path]. *)
Definition obj_at (path : string) (f : FS) : State :=
  mkState SaveFormatsEnm.CONST true path None base_payload fresh_result f
    uuids 0 [].

(** A generator that returns the same UUID twice. *)
Definition uuids_repeated (n : nat) : UUID := uuids 0.

Definition obj_repeated : State :=
  mkState SaveFormatsEnm.CONST true "PythonRuCaptchaImages" None base_payload
    fresh_result disk uuids_repeated 0 [].


(** A submission collaborator that fails remotely. *)
Definition submit_error (kwargs : Kwargs) (st : State) : outcome pydict * State :=
  let r := mkResponseSer PyNone PyNone true (PyStr "ERROR_ZERO_BALANCE") in
  (Return (dict false r), set_result r st).

End Examples.

(** * Properties *)

(** ** base64 *)

Ltac nlia := zify; Z.to_euclidean_division_equations; lia.

Lemma char_sextet_char (n : N) :
  (n < 64)%N -> Base64.char_sextet (Base64.sextet_char n) = Some n.
Proof.
  intros H. rewrite <- (N2Nat.id n).
  assert (Hn : (N.to_nat n < 64)%nat) by lia.
  revert Hn. generalize (N.to_nat n). clear. intros m Hm.
  do 64 (destruct m as [|m]; [reflexivity|]). lia.
Qed.

Lemma sextet_char_not_pad (n : N) :
  (n < 64)%N -> Ascii.eqb (Base64.sextet_char n) Base64.pad = false.
Proof.
  intros H. apply Ascii.eqb_neq. intros E.
  pose proof (char_sextet_char n H) as C. rewrite E in C. discriminate.
Qed.

Lemma sextets_first (n m : N) :
  (n <= 255 -> m <= 255 -> (n / 4) * 4 + ((n mod 4) * 16 + m / 16) / 16 = n)%N.
Proof. intros. nlia. Qed.

Lemma sextets_second (n m k : N) :
  (n <= 255 -> m <= 255 -> k < 4 ->
   ((n mod 4) * 16 + m / 16) mod 16 * 16 + ((m mod 16) * 4 + k) / 4 = m)%N.
Proof. intros. nlia. Qed.

Lemma sextets_third (m k : N) :
  (m <= 255 -> k <= 255 ->
   ((m mod 16) * 4 + k / 64) mod 4 * 64 + k mod 64 = k)%N.
Proof. intros. nlia. Qed.

Lemma quad_three (b0 b1 b2 : byte) :
  let n := Byte.to_N b0 in
  let m := Byte.to_N b1 in
  let k := Byte.to_N b2 in
  Base64.quad (Base64.sextet_char (n / 4))
    (Base64.sextet_char ((n mod 4) * 16 + m / 16))
    (Base64.sextet_char ((m mod 16) * 4 + k / 64))
    (Base64.sextet_char (k mod 64)) = Some [b0; b1; b2].
Proof.
  cbv zeta.
  pose proof (Byte.to_N_bounded b0) as Hn.
  pose proof (Byte.to_N_bounded b1) as Hm.
  pose proof (Byte.to_N_bounded b2) as Hk.
  remember (Byte.to_N b0) as n eqn:En.
  remember (Byte.to_N b1) as m eqn:Em.
  remember (Byte.to_N b2) as k eqn:Ek.
  unfold Base64.quad.
  rewrite !char_sextet_char, !sextet_char_not_pad by nlia.
  cbn [mbind option_bind].
  rewrite sextets_first, sextets_second, sextets_third by nlia.
  subst n m k. rewrite !Byte.of_to_N. reflexivity.
Qed.

Lemma quad_two (b0 b1 : byte) :
  let n := Byte.to_N b0 in
  let m := Byte.to_N b1 in
  Base64.quad (Base64.sextet_char (n / 4))
    (Base64.sextet_char ((n mod 4) * 16 + m / 16))
    (Base64.sextet_char ((m mod 16) * 4)) Base64.pad = Some [b0; b1].
Proof.
  cbv zeta.
  pose proof (Byte.to_N_bounded b0) as Hn.
  pose proof (Byte.to_N_bounded b1) as Hm.
  remember (Byte.to_N b0) as n eqn:En.
  remember (Byte.to_N b1) as m eqn:Em.
  unfold Base64.quad.
  rewrite !char_sextet_char, !sextet_char_not_pad by nlia.
  cbn [mbind option_bind].
  replace ((m mod 16) * 4)%N with ((m mod 16) * 4 + 0)%N by lia.
  rewrite sextets_first, sextets_second by nlia.
  subst n m. rewrite !Byte.of_to_N. reflexivity.
Qed.

Lemma quad_one (b0 : byte) :
  let n := Byte.to_N b0 in
  Base64.quad (Base64.sextet_char (n / 4))
    (Base64.sextet_char ((n mod 4) * 16)) Base64.pad Base64.pad = Some [b0].
Proof.
  cbv zeta.
  pose proof (Byte.to_N_bounded b0) as Hn.
  remember (Byte.to_N b0) as n eqn:En.
  unfold Base64.quad.
  rewrite !char_sextet_char by nlia.
  cbn [mbind option_bind].
  replace ((n mod 4) * 16)%N with ((n mod 4) * 16 + 0 / 16)%N
    by (change (0 / 16)%N with 0%N; lia).
  rewrite sextets_first by nlia.
  subst n. rewrite Byte.of_to_N. reflexivity.
Qed.

Lemma b64decode_group (c0 c1 c2 c3 : ascii) (rest : string) :
  Base64.b64decode (String c0 (String c1 (String c2 (String c3 rest)))) =
  chunk ← Base64.quad c0 c1 c2 c3;
  match rest with
  | "" => Some chunk
  | _ =>
      if Nat.eqb (List.length chunk) 3
      then tl ← Base64.b64decode rest; Some (chunk ++ tl)%list
      else None
  end.
Proof. reflexivity. Qed.

Lemma b64encode_empty (bs : bytes) : Base64.b64encode bs = "" -> bs = [].
Proof. destruct bs as [|b0 [|b1 [|b2 rest]]]; [reflexivity | discriminate ..]. Qed.

Lemma bytes_ind3 (P : bytes -> Prop) :
  P [] -> (forall a, P [a]) -> (forall a b, P [a; b]) ->
  (forall a b c l, P l -> P (a :: b :: c :: l)) ->
  forall l, P l.
Proof.
  intros H0 H1 H2 H3.
  assert (forall l, P l /\ (forall a, P (a :: l)) /\ (forall a b, P (a :: b :: l)))
    as Hall.
  { induction l as [|x l (IH0 & IH1 & IH2)].
    - auto.
    - repeat split; auto. }
  intros l. apply Hall.
Qed.

(** Decoding the encoded text gives the bytes back. *)
Lemma b64decode_b64encode (bs : bytes) :
  Base64.b64decode (Base64.b64encode bs) = Some bs.
Proof.
  induction bs as [|a|a b|a b c rest IH] using bytes_ind3.
  - reflexivity.
  - cbn [Base64.b64encode]. rewrite b64decode_group, quad_one. reflexivity.
  - cbn [Base64.b64encode]. rewrite b64decode_group, quad_two. reflexivity.
  - cbn [Base64.b64encode]. rewrite b64decode_group, quad_three.
    cbn [mbind option_bind].
    destruct (Base64.b64encode rest) eqn:E.
    + apply b64encode_empty in E. subst rest. reflexivity.
    + rewrite IH. reflexivity.
Qed.

(** ** Generated names *)

Lemma hex_digit_inj (n m : N) :
  (n < 16)%N -> (m < 16)%N -> hex_digit n = hex_digit m -> n = m.
Proof.
  intros Hn Hm. rewrite <- (N2Nat.id n), <- (N2Nat.id m).
  assert (Hn' : (N.to_nat n < 16)%nat) by lia.
  assert (Hm' : (N.to_nat m < 16)%nat) by lia.
  revert Hn' Hm'. generalize (N.to_nat n) (N.to_nat m). clear.
  intros a b Ha Hb.
  do 16 (destruct a as [|a]; [do 16 (destruct b as [|b];
    [first [reflexivity | discriminate]|]); lia|]).
  lia.
Qed.

Lemma to_N_inj (a b : byte) : Byte.to_N a = Byte.to_N b -> a = b.
Proof.
  intros H. pose proof (Byte.of_to_N a) as Ha. rewrite H, Byte.of_to_N in Ha.
  congruence.
Qed.

Lemma hex_byte_inj (a b : byte) :
  hex_digit (Byte.to_N a / 16) = hex_digit (Byte.to_N b / 16) ->
  hex_digit (Byte.to_N a mod 16) = hex_digit (Byte.to_N b mod 16) ->
  a = b.
Proof.
  intros Hhi Hlo.
  pose proof (Byte.to_N_bounded a) as Ba. pose proof (Byte.to_N_bounded b) as Bb.
  apply hex_digit_inj in Hhi; [|nlia ..].
  apply hex_digit_inj in Hlo; [|nlia ..].
  apply to_N_inj. nlia.
Qed.

Lemma uuid_str_inj (u v : UUID) : uuid_str u = uuid_str v -> u = v.
Proof.
  destruct u, v. unfold uuid_str, hex_byte. intros H.
  injection H; clear H; intros.
  f_equal; apply hex_byte_inj; assumption.
Qed.


(** ** Paths *)

Lemma split_slash_nonnil (s : string) : split_slash s <> [].
Proof.
  destruct s as [|c s]; cbn; [discriminate|].
  destruct (Ascii.eqb c "/"); [discriminate|].
  destruct (split_slash s); discriminate.
Qed.

Lemma split_slash_no_slash (b : string) :
  no_slash b = true -> split_slash b = [b].
Proof.
  induction b as [|c b IH]; cbn; [reflexivity|].
  intros [Hc Hb]%andb_true_iff. apply negb_true_iff in Hc.
  rewrite Hc, (IH Hb). reflexivity.
Qed.

Lemma append_cons (c : ascii) (a b : string) :
  String c a ++ b = String c (a ++ b).
Proof. reflexivity. Qed.

Lemma append_nil (b : string) : "" ++ b = b.
Proof. reflexivity. Qed.

Lemma split_slash_cons (c : ascii) (s : string) :
  split_slash (String c s) =
  if Ascii.eqb c "/" then "" :: split_slash s
  else match split_slash s with
       | seg :: segs => String c seg :: segs
       | [] => [String c ""]
       end.
Proof. reflexivity. Qed.

Lemma split_slash_app_slash (a b : string) :
  split_slash (a ++ String "/" b) = (split_slash a ++ split_slash b)%list.
Proof.
  induction a as [|c a IH].
  - reflexivity.
  - change (String c a ++ String "/" b) with (String c (a ++ String "/" b)).
    rewrite !split_slash_cons, IH.
    destruct (Ascii.eqb c "/"); [reflexivity|].
    pose proof (split_slash_nonnil a) as Hne.
    destruct (split_slash a); [congruence | reflexivity].
Qed.

Lemma append_assoc (a b c : string) : (a ++ b) ++ c = a ++ (b ++ c).
Proof.
  induction a as [|x a IH]; [reflexivity|].
  rewrite !append_cons. congruence.
Qed.

Lemma ends_with_slash_inv (a : string) :
  ends_with_slash a = true -> exists a', a = a' ++ "/".
Proof.
  unfold ends_with_slash. induction a as [|c a IH]; cbn [last_char].
  - discriminate.
  - destruct a as [|d a].
    + intros H. apply Ascii.eqb_eq in H. subst c. exists "". reflexivity.
    + intros H. destruct (IH H) as [a' Ha']. exists (String c a').
      rewrite append_cons, <- Ha'. reflexivity.
Qed.

Lemma parts_empty : parts "" = [].
Proof. reflexivity. Qed.

Lemma parts_app_slash (a b : string) :
  parts (a ++ String "/" b) = (parts a ++ parts b)%list.
Proof. unfold parts. rewrite split_slash_app_slash. apply List.filter_app. Qed.

Lemma parts_single (b : string) :
  no_slash b = true -> real_component b = true -> parts b = [b].
Proof.
  intros Hs Hr. unfold parts. rewrite (split_slash_no_slash b Hs).
  cbn [List.filter]. rewrite Hr. reflexivity.
Qed.

(** A file joined to a directory lies directly below it. *)
Lemma parts_join (dir name : string) :
  no_slash name = true -> real_component name = true ->
  parts (os_path_join dir name) = (parts dir ++ [name])%list.
Proof.
  intros Hs Hr. unfold os_path_join.
  assert (starts_with_slash name = false) as ->.
  { destruct name as [|c name]; [reflexivity|]. cbn in Hs |- *.
    apply andb_true_iff in Hs as [Hc _]. by apply negb_true_iff in Hc. }
  destruct (String.eqb dir "") eqn:Edir; cbn [orb].
  { apply String.eqb_eq in Edir. subst dir. rewrite append_nil.
    rewrite parts_empty. by apply parts_single. }
  destruct (ends_with_slash dir) eqn:Eend.
  - destruct (ends_with_slash_inv dir Eend) as [a' ->].
    rewrite append_assoc, append_cons, append_nil.
    rewrite !parts_app_slash, parts_empty, app_nil_r.
    rewrite (parts_single name) by assumption. reflexivity.
  - rewrite append_cons, append_nil, parts_app_slash.
    rewrite (parts_single name) by assumption. reflexivity.
Qed.

Lemma hex_digit_no_slash (n : N) : Ascii.eqb (hex_digit n) "/" = false.
Proof.
  unfold hex_digit. generalize (N.to_nat n). intros m.
  do 17 (destruct m as [|m]; [reflexivity|]). reflexivity.
Qed.

Lemma image_name_no_slash (u : UUID) : no_slash (image_name u) = true.
Proof.
  destruct u. unfold image_name, uuid_str, hex_byte.
  repeat first [rewrite append_cons | rewrite append_nil].
  cbn [no_slash]. rewrite !hex_digit_no_slash. reflexivity.
Qed.

Lemma image_name_real (u : UUID) : real_component (image_name u) = true.
Proof. destruct u. reflexivity. Qed.

Lemma parts_join_image (dir : string) (u : UUID) :
  parts (os_path_join dir (image_name u)) = (parts dir ++ [image_name u])%list.
Proof. apply parts_join; [apply image_name_no_slash | apply image_name_real]. Qed.

(** ** The disk *)

Lemma mkdir_parents_nil (p : string) (cur : list string) (f : FS) :
  mkdir_parents p cur [] f = (None, f).
Proof. reflexivity. Qed.

Lemma mkdir_parents_cons (p : string) (cur : list string) (seg : string)
    (rest : list string) (f : FS) :
  mkdir_parents p cur (seg :: rest) f =
  match f !! (cur ++ [seg])%list with
  | None => mkdir_parents p (cur ++ [seg]) rest (<[(cur ++ [seg])%list := Dir]> f)
  | Some Dir => mkdir_parents p (cur ++ [seg]) rest f
  | Some (File _) =>
      (Some (match rest with
             | [] => FileExistsError p
             | _ => NotADirectoryError p
             end), f)
  end.
Proof. reflexivity. Qed.

(** Creating directories never changes a node that exists. *)
Lemma mkdir_parents_mono (p : string) (todo : list string) :
  forall (cur : list string) (f f' : FS) (e : option exn),
    mkdir_parents p cur todo f = (e, f') ->
    forall (k : list string) (v : node), f !! k = Some v -> f' !! k = Some v.
Proof.
  induction todo as [|seg rest IH]; intros cur f f' e Hrun k v Hk.
  - rewrite mkdir_parents_nil in Hrun. by simplify_eq.
  - rewrite mkdir_parents_cons in Hrun.
    destruct (f !! (cur ++ [seg])%list) as [[|c]|] eqn:Hcur.
    + eapply IH; eauto.
    + by simplify_eq.
    + eapply IH; [exact Hrun|].
      rewrite lookup_insert_ne; [done|]. intros <-. congruence.
Qed.

(** Only paths on the way to the target are touched. *)
Lemma mkdir_parents_frame (p : string) (todo : list string) :
  forall (cur : list string) (f f' : FS) (e : option exn),
    mkdir_parents p cur todo f = (e, f') ->
    forall k : list string,
      (List.length (cur ++ todo) < List.length k)%nat -> f' !! k = f !! k.
Proof.
  induction todo as [|seg rest IH]; intros cur f f' e Hrun k Hlen.
  - rewrite mkdir_parents_nil in Hrun. by simplify_eq.
  - rewrite mkdir_parents_cons in Hrun.
    assert (Hlen' : (List.length ((cur ++ [seg]) ++ rest) < List.length k)%nat).
    { by rewrite <- app_assoc. }
    destruct (f !! (cur ++ [seg])%list) as [[|c]|] eqn:Hcur.
    + eapply IH; eauto.
    + by simplify_eq.
    + rewrite (IH _ _ _ _ Hrun k Hlen').
      apply lookup_insert_ne. intros E. rewrite <- E in Hlen'.
      rewrite !length_app in Hlen'. lia.
Qed.

(** When the call succeeds the target is a directory. *)
Lemma mkdir_parents_dir (p : string) (todo : list string) :
  forall (cur : list string) (f f' : FS),
    mkdir_parents p cur todo f = (None, f') ->
    todo <> [] -> f' !! (cur ++ todo)%list = Some Dir.
Proof.
  induction todo as [|seg rest IH]; intros cur f f' Hrun Hne; [done|].
  rewrite mkdir_parents_cons in Hrun.
  replace (cur ++ seg :: rest)%list with ((cur ++ [seg]) ++ rest)%list
    by (by rewrite <- app_assoc).
  destruct rest as [|seg' rest'].
  - rewrite app_nil_r.
    destruct (f !! (cur ++ [seg])%list) as [[|c]|] eqn:Hcur;
      rewrite ?mkdir_parents_nil in Hrun; simplify_eq; [done|].
    apply lookup_insert_eq.
  - destruct (f !! (cur ++ [seg])%list) as [[|c]|] eqn:Hcur;
      [| done |]; eapply IH; eauto.
Qed.

(** The call succeeds unless a regular file lies on the way. *)
Lemma mkdir_parents_ok (p : string) (todo : list string) :
  forall (cur : list string) (f : FS),
    (forall (k : list string) (c : bytes),
        k `prefix_of` (cur ++ todo)%list ->
        (List.length cur < List.length k)%nat -> f !! k <> Some (File c)) ->
    exists f', mkdir_parents p cur todo f = (None, f').
Proof.
  induction todo as [|seg rest IH]; intros cur f Hfree.
  - by exists f.
  - rewrite mkdir_parents_cons.
    assert (Hpre : (cur ++ [seg])%list `prefix_of` (cur ++ seg :: rest)%list).
    { exists rest. by rewrite <- app_assoc. }
    assert (Hlen : (List.length cur < List.length (cur ++ [seg]))%nat).
    { rewrite length_app. cbn [List.length]. lia. }
    assert (Hfree' : forall (k : list string) (c : bytes),
               k `prefix_of` ((cur ++ [seg]) ++ rest)%list ->
               (List.length (cur ++ [seg]) < List.length k)%nat ->
               f !! k <> Some (File c)).
    { intros k c Hk Hlk. apply Hfree; [by rewrite <- app_assoc in Hk | lia]. }
    destruct (f !! (cur ++ [seg])%list) as [[|c]|] eqn:Hcur.
    + by apply IH.
    + exfalso. by apply (Hfree _ c Hpre Hlen).
    + apply IH. intros k c Hk Hlk.
      destruct (decide (k = (cur ++ [seg])%list)) as [->|Hne].
      * by rewrite lookup_insert_eq.
      * rewrite lookup_insert_ne by done. by apply Hfree'.
Qed.

Lemma is_dir_after_mkdir (p : string) (f f' : FS) :
  mkdir_parents p [] (parts p) f = (None, f') -> is_dir f' (parts p) = true.
Proof.
  intros Hrun. unfold is_dir.
  destruct (parts p) as [|seg rest] eqn:E; [done|].
  pose proof (mkdir_parents_dir p (seg :: rest) [] f f' Hrun) as Hd.
  cbn [app] in Hd. by rewrite Hd.
Qed.

(** After [shutil.rmtree] of a directory nothing is left at or below it,
    and every other node is as before. *)
Lemma emptied_lookup (k k' : list string) (f : FS) :
  filter (fun kv => ¬ below k kv.1) f !! k' =
  if decide (below k k') then None else f !! k'.
Proof.
  case_decide as Hb.
  - apply map_lookup_filter_None. right. intros v _ Hn. by apply Hn.
  - destruct (f !! k') as [v|] eqn:E.
    + apply map_lookup_filter_Some. done.
    + apply map_lookup_filter_None. by left.
Qed.

Lemma emptied_no_entries (k : list string) (f : FS) :
  size (filter (fun kv => below k kv.1)
          (filter (fun kv => ¬ below k kv.1) f)) = 0.
Proof.
  apply map_size_empty_iff, map_empty. intros i.
  apply map_lookup_filter_None. right. intros v Hv Hb.
  apply map_lookup_filter_Some in Hv as [_ Hn]. by apply Hn.
Qed.

(** What is left of the disk once the tree at [k] is gone. *)
Lemma rmtree_lookup (k k' : list string) (f : FS) :
  delete k (filter (fun kv => ¬ below k kv.1) f) !! k' =
  if decide (k `prefix_of` k') then None else f !! k'.
Proof.
  case_decide as Hpre.
  - destruct (decide (k' = k)) as [->|Hne].
    + apply lookup_delete_eq.
    + rewrite lookup_delete_ne by done.
      rewrite emptied_lookup, decide_True; [done|]. by split.
  - assert (k <> k') by (intros ->; by apply Hpre).
    rewrite lookup_delete_ne by done.
    rewrite emptied_lookup, decide_False; [done|]. by intros [? _].
Qed.

(** ** Path resolution *)

Lemma walk_cons (f : FS) (cur : list string) (last : last_type)
    (seg : string) (rest : list string) :
  walk f cur last (seg :: rest) =
  if String.eqb seg "" then walk f cur last rest
  else if String.eqb seg "." then walk f cur LastDot rest
  else if String.eqb seg ".." then walk f (removelast cur) LastDotDot rest
  else match f !! (cur ++ [seg])%list with
       | Some Dir => walk f (cur ++ [seg])%list LastNorm rest
       | Some (File c) =>
           match rest with
           | [] => FoundFile (cur ++ [seg])%list c
           | _ => ENOTDIR
           end
       | None => ENOENT
       end.
Proof. reflexivity. Qed.

(** Case analysis on one step of the walk along a path without [..]. *)
Ltac walk_step seg rest Hdd :=
  rewrite !walk_cons;
  cbn [existsb] in Hdd; apply orb_false_iff in Hdd as [Hseg Hdd];
  rewrite (String.eqb_sym ".." seg) in Hseg;
  destruct (String.eqb seg "") eqn:Hempty;
  [|destruct (String.eqb seg ".") eqn:Hdot;
    [|rewrite Hseg]].

(** Without [..] the walk only goes down. *)
Lemma walk_prefix (f : FS) (segs : list string) :
  forall (cur : list string) (last : last_type) (k : list string)
         (l : last_type),
  existsb (String.eqb "..") segs = false ->
  walk f cur last segs = Found k l -> cur `prefix_of` k.
Proof.
  induction segs as [|seg rest IH]; intros cur last k l Hdd Hw.
  - cbn in Hw. by injection Hw as -> _.
  - revert Hw. walk_step seg rest Hdd; try by eauto.
    destruct (f !! (cur ++ [seg])%list) as [[|c]|] eqn:E;
      [|by destruct rest|done].
    intros Hw. apply IH in Hw; [|done].
    etrans; [|exact Hw]. by apply prefix_app_r.
Qed.

(** Without [..] the way a path ends is read off its segments. *)
Lemma walk_last (f : FS) (segs : list string) :
  forall (cur : list string) (last : last_type) (k : list string)
         (l : last_type),
  existsb (String.eqb "..") segs = false ->
  walk f cur last segs = Found k l -> l = last_kind last segs.
Proof.
  induction segs as [|seg rest IH]; intros cur last k l Hdd Hw.
  - cbn in Hw. by injection Hw as _ ->.
  - revert Hw. cbn [last_kind]. walk_step seg rest Hdd; try by eauto.
    destruct (f !! (cur ++ [seg])%list) as [[|c]|] eqn:E;
      [|by destruct rest|done].
    by eauto.
Qed.

(** A path that ends in an ordinary name does not resolve to the root. *)
Lemma walk_norm_nonroot (f : FS) (segs : list string) :
  forall (cur : list string) (last : last_type) (k : list string),
  existsb (String.eqb "..") segs = false ->
  walk f cur last segs = Found k LastNorm -> last = LastNorm \/ k <> [].
Proof.
  induction segs as [|seg rest IH]; intros cur last k Hdd Hw.
  - cbn in Hw. injection Hw as _ ->. by left.
  - revert Hw. walk_step seg rest Hdd; try by eauto.
    + intros Hw. apply IH in Hw as [?|?]; [done|by right|done].
    + destruct (f !! (cur ++ [seg])%list) as [[|c]|] eqn:E;
        [|by destruct rest|done].
      intros Hw. apply walk_prefix in Hw; [|done]. right. intros ->.
      apply prefix_nil_inv in Hw. by destruct cur.
Qed.

(** The walk only looks at the nodes on its way. *)
Lemma walk_agree (f f' : FS) (segs : list string) :
  forall (cur : list string) (last : last_type) (k : list string)
         (l : last_type),
  existsb (String.eqb "..") segs = false ->
  (forall key : list string, key `prefix_of` k -> f' !! key = f !! key) ->
  walk f cur last segs = Found k l -> walk f' cur last segs = Found k l.
Proof.
  induction segs as [|seg rest IH]; intros cur last k l Hdd Hsame Hw.
  - done.
  - revert Hw. walk_step seg rest Hdd; try by eauto.
    destruct (f !! (cur ++ [seg])%list) as [[|c]|] eqn:E;
      [|by destruct rest|done].
    intros Hw. rewrite Hsame, E; [by eauto|].
    by apply walk_prefix in Hw.
Qed.

(** Once the node a path led to is gone, the path leads nowhere. *)
Lemma walk_gone (f f' : FS) (segs : list string) :
  forall (cur : list string) (last : last_type) (k : list string)
         (l : last_type),
  existsb (String.eqb "..") segs = false ->
  cur <> k -> f' !! k = None ->
  (forall key : list string,
      key `prefix_of` k -> key <> k -> f' !! key = f !! key) ->
  walk f cur last segs = Found k l -> walk f' cur last segs = ENOENT.
Proof.
  induction segs as [|seg rest IH]; intros cur last k l Hdd Hne Hk Hsame Hw.
  - cbn in Hw. by injection Hw as -> _.
  - revert Hw. walk_step seg rest Hdd; try by eauto.
    destruct (f !! (cur ++ [seg])%list) as [[|c]|] eqn:E;
      [|by destruct rest|done].
    intros Hw. destruct (decide ((cur ++ [seg])%list = k)) as [Heq|Hneq].
    + by rewrite Heq, Hk.
    + rewrite Hsame, E; [by eauto| |done].
      by apply walk_prefix in Hw.
Qed.

(** Along directories that exist, a path without [..] resolves to the key
    made of its components. *)
Lemma walk_along (f : FS) (segs : list string) :
  forall (cur : list string) (last : last_type),
  existsb (String.eqb "..") segs = false ->
  (forall pre : list string,
      pre <> [] -> pre `prefix_of` List.filter real_component segs ->
      f !! (cur ++ pre)%list = Some Dir) ->
  walk f cur last segs =
    Found (cur ++ List.filter real_component segs)%list (last_kind last segs).
Proof.
  induction segs as [|seg rest IH]; intros cur last Hdd Hdirs.
  - cbn. by rewrite app_nil_r.
  - cbn [last_kind List.filter]. unfold real_component at 1.
    unfold real_component at 1 in Hdirs. cbn [List.filter] in Hdirs.
    walk_step seg rest Hdd; rewrite ?Hempty, ?Hdot in Hdirs |- *;
      cbn [negb andb] in Hdirs |- *; try by eauto.
    rewrite (Hdirs [seg]); [|done|by apply prefix_cons, prefix_nil].
    rewrite IH; [by rewrite <- app_assoc|done|].
    intros pre Hpne Hpre. rewrite <- app_assoc. apply Hdirs; [done|].
    by apply prefix_cons.
Qed.

Lemma names_directly_inv (p : string) :
  names_directly p = true ->
  has_dotdot p = false /\ last_kind LastRoot (split_slash p) = LastNorm /\
  p <> "".
Proof.
  unfold names_directly. intros H. apply andb_true_iff in H as [Hdd Hl].
  apply negb_true_iff in Hdd. split; [done|]. split.
  - by destruct (last_kind LastRoot (split_slash p)).
  - intros ->. discriminate Hl.
Qed.

(** A path that names its directory directly resolves, when the directory
    and the ones above it exist, to the key of its components. *)
Lemma resolve_directly (f : FS) (p : string) :
  names_directly p = true ->
  (forall pre : list string,
      pre <> [] -> pre `prefix_of` parts p -> f !! pre = Some Dir) ->
  resolve f p = Found (parts p) LastNorm.
Proof.
  intros Hp Hdirs. apply names_directly_inv in Hp as (Hdd & Hl & Hne).
  unfold resolve. apply String.eqb_neq in Hne. rewrite Hne.
  rewrite walk_along; [by rewrite Hl|done|done].
Qed.

(** Removing a directory named without [..]: both stages of
    [shutil.rmtree] go through. *)
Lemma rmtree_directory (p : string) (k : list string) (st : State) :
  has_dotdot p = false ->
  resolve (fs st) p = Found k LastNorm ->
  shutil_rmtree p st =
    (Return tt,
     set_fs (delete k (filter (fun kv => ¬ below k kv.1) (fs st)))
       (log_event (EvRmtree p) st)).
Proof.
  intros Hdd Hres. unfold shutil_rmtree. cbn [fs log_event].
  rewrite Hres. cbn zeta. unfold os_rmdir.
  assert (resolve (filter (fun kv => ¬ below k kv.1) (fs st)) p
          = Found k LastNorm) as ->.
  { revert Hres. unfold resolve. destruct (String.eqb p ""); [done|].
    apply walk_agree; [done|]. intros key Hkey.
    rewrite emptied_lookup, decide_False; [done|].
    intros [Hpre Hne]. apply Hne. by apply (anti_symm prefix). }
  by rewrite emptied_no_entries.
Qed.

(** A second removal finds nothing. *)
Lemma rmtree_gone (p : string) (k : list string) (f : FS) (st : State) :
  has_dotdot p = false ->
  resolve f p = Found k LastNorm ->
  fs st = delete k (filter (fun kv => ¬ below k kv.1) f) ->
  shutil_rmtree p st =
    (Raise (FileNotFoundError p), log_event (EvRmtree p) st).
Proof.
  intros Hdd Hres Hfs. unfold shutil_rmtree. cbn [fs log_event].
  assert (resolve (fs st) p = ENOENT) as ->; [|done].
  revert Hres. unfold resolve. destruct (String.eqb p ""); [done|].
  intros Hres. apply (walk_gone f _ _ _ _ k LastNorm); [done| | | |done].
  - apply walk_norm_nonroot in Hres as [?|?]; done.
  - rewrite Hfs. apply lookup_delete_eq.
  - intros key Hkey Hne. rewrite Hfs, rmtree_lookup, decide_False; [done|].
    intros Hpre. apply Hne. by apply (anti_symm prefix).
Qed.

(** ** The result mapping *)

Lemma dict_lookup_Some (b : bool) (r : ResponseSer) (k : string) (v : pyval) :
  dict b r !! k = Some v ->
  In (k, v) (fields r) /\ (b = true -> is_None v = false).
Proof.
  unfold dict. intros H. apply elem_of_list_to_map_2 in H.
  apply list_elem_of_In in H. destruct b.
  - apply List.filter_In in H as [Hin Hv]. split; [done|].
    intros _. by apply negb_true_iff in Hv.
  - split; [done | discriminate].
Qed.

(** With [exclude_none] no key is bound to [None]. *)
Lemma dict_exclude_none_no_null (r : ResponseSer) (k : string) :
  dict true r !! k <> Some PyNone.
Proof.
  intros H. apply dict_lookup_Some in H as [_ H]. specialize (H eq_refl).
  discriminate.
Qed.

(** Without it every field is a key, set or not. *)
Lemma dict_full (r : ResponseSer) :
  dict false r !! "captchaSolve" = Some (captchaSolve r) /\
  dict false r !! "taskId" = Some (taskId r) /\
  dict false r !! "error" = Some (PyBool (error r)) /\
  dict false r !! "errorBody" = Some (errorBody r).
Proof. repeat split; reflexivity. Qed.

Lemma dict_error (b : bool) (r : ResponseSer) :
  dict b r !! "error" = Some (PyBool (error r)).
Proof.
  destruct b; [|reflexivity].
  destruct r as [cs ti er eb]. destruct cs, ti, eb; reflexivity.
Qed.

Lemma dict_errorBody (b : bool) (r : ResponseSer) :
  is_None (errorBody r) = false ->
  dict b r !! "errorBody" = Some (errorBody r).
Proof.
  destruct b; [|reflexivity].
  destruct r as [cs ti er eb]. destruct cs, ti, eb; (discriminate || reflexivity).
Qed.

Lemma dict_exclude_none_unset (r : ResponseSer) :
  (captchaSolve r = PyNone -> dict true r !! "captchaSolve" = None) /\
  (taskId r = PyNone -> dict true r !! "taskId" = None) /\
  (errorBody r = PyNone -> dict true r !! "errorBody" = None).
Proof.
  destruct r as [cs ti er eb]. cbn [captchaSolve taskId errorBody].
  repeat split; intros ->;
    repeat match goal with v : pyval |- _ => destruct v end; reflexivity.
Qed.

(** ** The handlers *)

Ltac state_simpl :=
  cbn [save_format img_clearing img_path _image_name post_payload result fs
       uuid_stream uuid_drawn trace set__image_name set_post_payload
       set_result set_fs set_uuid_drawn log_event fst snd].

Ltac run_monad :=
  unfold result_dict, result_set_error, result_set_errorBody,
    post_payload_update, try_except_Exception,
    mbind, M_bind, bind, mret, M_ret, ret, raise, get, modify;
  cbv beta.

Lemma truthy_str_Some (s : string) : s <> "" -> truthy_str (Some s) = Some s.
Proof.
  intros H. unfold truthy_str. destruct (String.eqb s "") eqn:E; [|done].
  by apply String.eqb_eq in E.
Qed.

Lemma truthy_bytes_Some (b : bytes) : b <> [] -> truthy_bytes (Some b) = Some b.
Proof. by destruct b. Qed.

Section Properties.

Variable BaseCaptcha_url_open : string -> Kwargs -> State -> outcome bytes.
Variable BaseCaptcha_aio_url_read : string -> Kwargs -> State -> outcome bytes.
Variable BaseCaptcha__processing_response :
  Kwargs -> State -> outcome pydict * State.
Variable BaseCaptcha__aio_processing_response :
  State -> outcome pydict * State.

Local Abbreviation handler :=
  (captcha_handler BaseCaptcha_url_open BaseCaptcha__processing_response).
Local Abbreviation aio_handler :=
  (aio_captcha_handler BaseCaptcha_aio_url_read
     BaseCaptcha__aio_processing_response).

(** *** Which branch runs *)

Lemma captcha_handler_file (link file : option string) (b64 : option bytes)
    (kw : Kwargs) (f : string) (st : State) :
  truthy_str file = Some f ->
  handler link file b64 kw st =
  match _local_image_captcha f st with
  | (Return content, st1) =>
      BaseCaptcha__processing_response kw
        (log_event EvSubmit
           (set_post_payload
              (<["body" := Base64.b64encode content]> (post_payload st1)) st1))
  | (Raise e, st1) => (Raise e, st1)
  end.
Proof.
  intros Hf. unfold captcha_handler. rewrite Hf. run_monad.
  destruct (_local_image_captcha f st) as [[content|e] st1]; reflexivity.
Qed.

Lemma aio_captcha_handler_file (link file : option string)
    (b64 : option bytes) (kw : Kwargs) (f : string) (st : State) :
  truthy_str file = Some f ->
  aio_handler link file b64 kw st =
  match _local_image_captcha f st with
  | (Return content, st1) =>
      BaseCaptcha__aio_processing_response
        (log_event EvSubmit
           (set_post_payload
              (<["body" := Base64.b64encode content]> (post_payload st1)) st1))
  | (Raise e, st1) => (Raise e, st1)
  end.
Proof.
  intros Hf. unfold aio_captcha_handler. rewrite Hf. run_monad.
  destruct (_local_image_captcha f st) as [[content|e] st1]; reflexivity.
Qed.

Lemma captcha_handler_bytes (link file : option string) (b64 : option bytes)
    (kw : Kwargs) (b : bytes) (st : State) :
  truthy_str file = None -> truthy_bytes b64 = Some b ->
  handler link file b64 kw st =
  BaseCaptcha__processing_response kw
    (log_event EvSubmit
       (set_post_payload (<["body" := Base64.b64encode b]> (post_payload st)) st)).
Proof.
  intros Hf Hb. unfold captcha_handler. rewrite Hf, Hb. reflexivity.
Qed.

Lemma aio_captcha_handler_bytes (link file : option string)
    (b64 : option bytes) (kw : Kwargs) (b : bytes) (st : State) :
  truthy_str file = None -> truthy_bytes b64 = Some b ->
  aio_handler link file b64 kw st =
  BaseCaptcha__aio_processing_response
    (log_event EvSubmit
       (set_post_payload (<["body" := Base64.b64encode b]> (post_payload st)) st)).
Proof.
  intros Hf Hb. unfold aio_captcha_handler. rewrite Hf, Hb.
  reflexivity.
Qed.

Lemma captcha_handler_none (link file : option string) (b64 : option bytes)
    (kw : Kwargs) (st : State) :
  truthy_str file = None -> truthy_bytes b64 = None ->
  truthy_str link = None ->
  let r := set_errorBody (PyStr NO_CAPTCHA_ERR) (set_error true (result st)) in
  handler link file b64 kw st = (Return (dict false r), set_result r st).
Proof.
  intros Hf Hb Hl. unfold captcha_handler. rewrite Hf, Hb, Hl.
  reflexivity.
Qed.

Lemma aio_captcha_handler_none (link file : option string)
    (b64 : option bytes) (kw : Kwargs) (st : State) :
  truthy_str file = None -> truthy_bytes b64 = None ->
  truthy_str link = None ->
  let r := set_errorBody (PyStr NO_CAPTCHA_ERR) (set_error true (result st)) in
  aio_handler link file b64 kw st =
  (Return (dict false r), set_result r st).
Proof.
  intros Hf Hb Hl. unfold aio_captcha_handler. rewrite Hf, Hb, Hl.
  reflexivity.
Qed.

Lemma captcha_handler_fetch_raise (link file : option string)
    (b64 : option bytes) (kw : Kwargs) (url : string) (e : exn) (st : State) :
  truthy_str file = None -> truthy_bytes b64 = None ->
  truthy_str link = Some url ->
  BaseCaptcha_url_open url kw st = Raise e ->
  handler link file b64 kw st =
  if isinstance_Exception e then
    let r := set_errorBody (PyExc e) (set_error true (result st)) in
    (Return (dict true r), log_event (EvFetch url kw) (set_result r st))
  else (Raise e, log_event (EvFetch url kw) st).
Proof.
  intros Hf Hb Hl He. unfold captcha_handler. rewrite Hf, Hb, Hl.
  run_monad. unfold url_open. rewrite He.
  destruct (isinstance_Exception e); reflexivity.
Qed.

Lemma aio_captcha_handler_fetch_raise (link file : option string)
    (b64 : option bytes) (kw : Kwargs) (url : string) (e : exn) (st : State) :
  truthy_str file = None -> truthy_bytes b64 = None ->
  truthy_str link = Some url ->
  BaseCaptcha_aio_url_read url kw st = Raise e ->
  aio_handler link file b64 kw st =
  if isinstance_Exception e then
    let r := set_errorBody (PyExc e) (set_error true (result st)) in
    (Return (dict true r), log_event (EvFetch url kw) (set_result r st))
  else (Raise e, log_event (EvFetch url kw) st).
Proof.
  intros Hf Hb Hl He. unfold aio_captcha_handler.
  rewrite Hf, Hb, Hl. run_monad. unfold aio_url_read. rewrite He.
  destruct (isinstance_Exception e); reflexivity.
Qed.

(** *** The cache manager *)

Lemma os_path_join_image_nonempty (dir : string) (u : UUID) :
  String.eqb (os_path_join dir (image_name u)) "" = false.
Proof.
  apply String.eqb_neq. intros E.
  pose proof (parts_join_image dir u) as H. rewrite E, parts_empty in H.
  by destruct (parts dir).
Qed.

Lemma image_const_saver_ok (content : bytes) (dir : string) (f' : FS)
    (st : State) :
  mkdir_parents dir [] (parts dir) (fs st) = (None, f') ->
  fs st !! (parts dir ++ [image_name (uuid_stream st (uuid_drawn st))])%list
    <> Some Dir ->
  _image_const_saver content dir st = (Return tt, saved content dir f' st).
Proof.
  intros Hrun Hfree.
  set (name := image_name (uuid_stream st (uuid_drawn st))) in *.
  assert (Hfree' : f' !! (parts dir ++ [name])%list <> Some Dir).
  { rewrite (mkdir_parents_frame _ _ _ _ _ _ Hrun); [done|].
    cbn [app]. rewrite length_app. cbn [List.length]. lia. }
  unfold _image_const_saver, Path_mkdir, uuid_uuid4. run_monad. state_simpl.
  rewrite Hrun. state_simpl. fold name.
  unfold open_wb_write. state_simpl.
  pose proof (os_path_join_image_nonempty dir (uuid_stream st (uuid_drawn st)))
    as Hne.
  pose proof (parts_join_image dir (uuid_stream st (uuid_drawn st))) as Hparts.
  fold name in Hne, Hparts. rewrite Hne, Hparts.
  destruct (parts dir ++ [name])%list as [|seg rest] eqn:E.
  { by destruct (parts dir). }
  rewrite <- E, removelast_last, (is_dir_after_mkdir _ _ _ Hrun).
  unfold saved. fold name.
  destruct (f' !! (parts dir ++ [name])%list) as [[|c]|] eqn:Et;
    [rewrite E in Et; congruence | reflexivity | reflexivity].
Qed.

(** A failed directory creation propagates and nothing is written. *)
Lemma image_const_saver_blocked (content : bytes) (dir : string) (e : exn)
    (f' : FS) (st : State) :
  mkdir_parents dir [] (parts dir) (fs st) = (Some e, f') ->
  _image_const_saver content dir st =
  (Raise e, set_fs f' (log_event (EvMkdir dir) st)).
Proof.
  intros Hrun. unfold _image_const_saver, Path_mkdir. run_monad. state_simpl.
  by rewrite Hrun.
Qed.

(** *** The remote-URL branch after a successful fetch *)

Lemma captcha_handler_fetch_ok (link file : option string)
    (b64 : option bytes) (kw : Kwargs) (url : string) (content : bytes)
    (st : State) :
  truthy_str file = None -> truthy_bytes b64 = None ->
  truthy_str link = Some url ->
  BaseCaptcha_url_open url kw st = Return content ->
  handler link file b64 kw st =
  let st1 := log_event (EvFetch url kw) st in
  let submit st2 :=
    BaseCaptcha__processing_response kw
      (log_event EvSubmit
         (set_post_payload
            (<["body" := Base64.b64encode content]> (post_payload st2)) st2)) in
  if String.eqb (save_format st) SaveFormatsEnm.CONST then
    match _image_const_saver content (img_path st) st1 with
    | (Return _, st2) => submit st2
    | (Raise e, st2) => (Raise e, st2)
    end
  else submit st1.
Proof.
  intros Hf Hb Hl He. unfold captcha_handler. rewrite Hf, Hb, Hl.
  run_monad. unfold url_open. rewrite He. state_simpl.
  destruct (String.eqb (save_format st) SaveFormatsEnm.CONST); [|reflexivity].
  state_simpl.
  destruct (_image_const_saver content (img_path st) _) as [[[]|e] st2];
    reflexivity.
Qed.

Lemma aio_captcha_handler_fetch_ok (link file : option string)
    (b64 : option bytes) (kw : Kwargs) (url : string) (content : bytes)
    (st : State) :
  truthy_str file = None -> truthy_bytes b64 = None ->
  truthy_str link = Some url ->
  BaseCaptcha_aio_url_read url kw st = Return content ->
  aio_handler link file b64 kw st =
  let st1 := log_event (EvFetch url kw) st in
  let submit st2 :=
    BaseCaptcha__aio_processing_response
      (log_event EvSubmit
         (set_post_payload
            (<["body" := Base64.b64encode content]> (post_payload st2)) st2)) in
  if String.eqb (save_format st) SaveFormatsEnm.CONST then
    match _image_const_saver content (img_path st) st1 with
    | (Return _, st2) => submit st2
    | (Raise e, st2) => (Raise e, st2)
    end
  else submit st1.
Proof.
  intros Hf Hb Hl He. unfold aio_captcha_handler. rewrite Hf, Hb, Hl.
  run_monad. unfold aio_url_read. rewrite He. state_simpl.
  destruct (String.eqb (save_format st) SaveFormatsEnm.CONST); [|reflexivity].
  state_simpl.
  destruct (_image_const_saver content (img_path st) _) as [[[]|e] st2];
    reflexivity.
Qed.

(** *** Claims *)

(** C1. Given the same inputs, a fetch collaborator and a submission
    collaborator that answer the blocking and the non-blocking call alike,
    [captcha_handler] and [aio_captcha_handler] return the same mapping
    (or raise the same exception). *)
Theorem C1_blocking_nonblocking_parity :
  (forall url kw st,
      BaseCaptcha_url_open url kw st = BaseCaptcha_aio_url_read url kw st) ->
  (forall kw st,
      (BaseCaptcha__processing_response kw st).1 =
      (BaseCaptcha__aio_processing_response st).1) ->
  forall (link file : option string) (b64 : option bytes) (kw : Kwargs)
         (st : State),
    (handler link file b64 kw st).1 = (aio_handler link file b64 kw st).1.
Proof.
  intros Hfetch Hsubmit link file b64 kw st.
  destruct (truthy_str file) as [f|] eqn:Hf.
  { rewrite (captcha_handler_file _ _ _ _ _ _ Hf),
      (aio_captcha_handler_file _ _ _ _ _ _ Hf).
    destruct (_local_image_captcha f st) as [[content|e] st1];
      [apply Hsubmit | reflexivity]. }
  destruct (truthy_bytes b64) as [b|] eqn:Hb.
  { rewrite (captcha_handler_bytes _ _ _ _ _ _ Hf Hb),
      (aio_captcha_handler_bytes _ _ _ _ _ _ Hf Hb).
    apply Hsubmit. }
  destruct (truthy_str link) as [url|] eqn:Hl.
  2:{ by rewrite (captcha_handler_none _ _ _ _ _ Hf Hb Hl),
        (aio_captcha_handler_none _ _ _ _ _ Hf Hb Hl). }
  destruct (BaseCaptcha_url_open url kw st) as [content|e] eqn:He.
  - rewrite (captcha_handler_fetch_ok _ _ _ _ _ _ _ Hf Hb Hl He).
    rewrite Hfetch in He.
    rewrite (aio_captcha_handler_fetch_ok _ _ _ _ _ _ _ Hf Hb Hl He).
    cbv zeta.
    destruct (String.eqb (save_format st) SaveFormatsEnm.CONST);
      [|apply Hsubmit].
    destruct (_image_const_saver content (img_path st) _) as [[[]|e] st2];
      [apply Hsubmit | reflexivity].
  - rewrite (captcha_handler_fetch_raise _ _ _ _ _ _ _ Hf Hb Hl He).
    rewrite Hfetch in He.
    by rewrite (aio_captcha_handler_fetch_raise _ _ _ _ _ _ _ Hf Hb Hl He).
Qed.

(** C2. Precedence of the sources.  With a non-empty file path, both
    handlers read that file and nothing changes when the raw bytes and
    the URL are replaced by any other values; with an empty or absent
    file path and non-empty raw bytes, the bytes are encoded and nothing
    changes when the URL (or the spelling of the absent file path) is
    replaced.  The choice is a function of the values alone. *)
Theorem C2_input_precedence (link link' file0 file0' : option string)
    (b64 b64' : option bytes) (f : string) (b : bytes) (kw : Kwargs)
    (st : State) :
  f <> "" -> b <> [] ->
  truthy_str file0 = None -> truthy_str file0' = None ->
  (handler link (Some f) b64 kw st = handler link' (Some f) b64' kw st /\
   aio_handler link (Some f) b64 kw st = aio_handler link' (Some f) b64' kw st /\
   handler link (Some f) b64 kw st =
     (content ← _local_image_captcha f;
      post_payload_update "body" (Base64.b64encode content);;
      _processing_response BaseCaptcha__processing_response kw) st /\
   aio_handler link (Some f) b64 kw st =
     (content ← _local_image_captcha f;
      post_payload_update "body" (Base64.b64encode content);;
      _aio_processing_response BaseCaptcha__aio_processing_response) st) /\
  (handler link file0 (Some b) kw st = handler link' file0' (Some b) kw st /\
   aio_handler link file0 (Some b) kw st =
     aio_handler link' file0' (Some b) kw st /\
   handler link file0 (Some b) kw st =
     (post_payload_update "body" (Base64.b64encode b);;
      _processing_response BaseCaptcha__processing_response kw) st /\
   aio_handler link file0 (Some b) kw st =
     (post_payload_update "body" (Base64.b64encode b);;
      _aio_processing_response BaseCaptcha__aio_processing_response) st).
Proof.
  intros Hf Hb H0 H0'.
  apply truthy_str_Some in Hf. apply truthy_bytes_Some in Hb.
  unfold captcha_handler, aio_captcha_handler.
  rewrite Hf, Hb, H0, H0'. repeat split; reflexivity.
Qed.

(** C3. With no file path, no raw bytes and no URL, both handlers return
    the mapping of the result with [error] true and [errorBody] the fixed
    message; the trace and the disk are as before the call, so that no
    disk access, no fetch and no submission took place. *)
Theorem C3_no_input (link file : option string) (b64 : option bytes)
    (kw : Kwargs) (st : State) :
  truthy_str file = None -> truthy_bytes b64 = None ->
  truthy_str link = None ->
  exists (d : pydict) (st' : State),
    handler link file b64 kw st = (Return d, st') /\
    aio_handler link file b64 kw st = (Return d, st') /\
    d !! "error" = Some (PyBool true) /\
    d !! "errorBody" =
      Some (PyStr "You did not send any file, local link or URL.") /\
    trace st' = trace st /\ fs st' = fs st /\
    uuid_drawn st' = uuid_drawn st /\ post_payload st' = post_payload st.
Proof.
  intros Hf Hb Hl.
  eexists _, _. split; [by apply captcha_handler_none|].
  split; [by apply aio_captcha_handler_none|].
  repeat split; reflexivity.
Qed.

(** C4. On the remote-URL branch, when the fetch raises an [Exception],
    both handlers return normally the mapping of the result with [error]
    true and [errorBody] the exception caught.  The only external call is
    the fetch: the disk is untouched whatever the save format, and the
    submission collaborator is not called. *)
Theorem C4_fetch_failure_absorbed (link file : option string)
    (b64 : option bytes) (kw : Kwargs) (url : string) (e : exn) (st : State) :
  truthy_str file = None -> truthy_bytes b64 = None ->
  truthy_str link = Some url ->
  isinstance_Exception e = true ->
  exists (d : pydict) (st' : State),
    (BaseCaptcha_url_open url kw st = Raise e ->
     handler link file b64 kw st = (Return d, st')) /\
    (BaseCaptcha_aio_url_read url kw st = Raise e ->
     aio_handler link file b64 kw st = (Return d, st')) /\
    d !! "error" = Some (PyBool true) /\
    d !! "errorBody" = Some (PyExc e) /\
    fs st' = fs st /\
    uuid_drawn st' = uuid_drawn st /\
    trace st' = (trace st ++ [EvFetch url kw])%list.
Proof.
  intros Hf Hb Hl He.
  set (r := set_errorBody (PyExc e) (set_error true (result st))).
  exists (dict true r), (log_event (EvFetch url kw) (set_result r st)).
  split; [|split].
  - intros Hr. rewrite (captcha_handler_fetch_raise _ _ _ _ _ _ _ Hf Hb Hl Hr).
    by rewrite He.
  - intros Hr.
    rewrite (aio_captcha_handler_fetch_raise _ _ _ _ _ _ _ Hf Hb Hl Hr).
    by rewrite He.
  - split; [apply dict_error|]. split; [by apply dict_errorBody|].
    repeat split; reflexivity.
Qed.

(** C5. For non-empty raw bytes (and no file path) both handlers call the
    submission collaborator on the object whose payload holds, under
    ["body"], the base64 text of exactly those bytes; decoding that text
    gives the bytes back. *)
Theorem C5_payload_body_base64 (link file : option string) (b : bytes)
    (kw : Kwargs) (st : State) :
  truthy_str file = None -> b <> [] ->
  exists st' : State,
    handler link file (Some b) kw st =
      BaseCaptcha__processing_response kw st' /\
    aio_handler link file (Some b) kw st =
      BaseCaptcha__aio_processing_response st' /\
    post_payload st' = <["body" := Base64.b64encode b]> (post_payload st) /\
    post_payload st' !! "body" = Some (Base64.b64encode b) /\
    (body ← post_payload st' !! "body"; Base64.b64decode body) = Some b.
Proof.
  intros Hf Hb. apply truthy_bytes_Some in Hb.
  eexists. split; [by apply captcha_handler_bytes|].
  split; [by apply aio_captcha_handler_bytes|].
  state_simpl. rewrite lookup_insert_eq. cbn [mbind option_bind].
  rewrite b64decode_b64encode. done.
Qed.

(** C6 (as the code has it).  The zero-input path serialises the result
    without [exclude_none]: the returned mapping has all four keys, and a
    field that was never set is bound to [None].  The option is used on
    the fetch-failure path instead: there no key is bound to [None], and
    a field that was never set has no key. *)
Theorem C6_exclude_none_on_fetch_failure (link file : option string)
    (b64 : option bytes) (kw : Kwargs) (st : State) :
  truthy_str file = None -> truthy_bytes b64 = None ->
  (truthy_str link = None ->
   exists d : pydict,
     (handler link file b64 kw st).1 = Return d /\
     (aio_handler link file b64 kw st).1 = Return d /\
     d !! "captchaSolve" = Some (captchaSolve (result st)) /\
     d !! "taskId" = Some (taskId (result st)) /\
     d !! "error" = Some (PyBool true) /\
     d !! "errorBody" = Some (PyStr NO_CAPTCHA_ERR)) /\
  (forall (url : string) (e : exn),
      truthy_str link = Some url -> isinstance_Exception e = true ->
      exists d : pydict,
        (BaseCaptcha_url_open url kw st = Raise e ->
         (handler link file b64 kw st).1 = Return d) /\
        (BaseCaptcha_aio_url_read url kw st = Raise e ->
         (aio_handler link file b64 kw st).1 = Return d) /\
        (forall k : string, d !! k <> Some PyNone) /\
        (captchaSolve (result st) = PyNone -> d !! "captchaSolve" = None) /\
        (taskId (result st) = PyNone -> d !! "taskId" = None) /\
        d !! "error" = Some (PyBool true) /\
        d !! "errorBody" = Some (PyExc e)).
Proof.
  intros Hf Hb. split.
  - intros Hl. eexists.
    rewrite (captcha_handler_none _ _ _ _ _ Hf Hb Hl),
      (aio_captcha_handler_none _ _ _ _ _ Hf Hb Hl).
    repeat split; reflexivity.
  - intros url e Hl He.
    set (r := set_errorBody (PyExc e) (set_error true (result st))).
    exists (dict true r). split; [|split].
    + intros Hr.
      rewrite (captcha_handler_fetch_raise _ _ _ _ _ _ _ Hf Hb Hl Hr).
      by rewrite He.
    + intros Hr.
      rewrite (aio_captcha_handler_fetch_raise _ _ _ _ _ _ _ Hf Hb Hl Hr).
      by rewrite He.
    + split; [apply dict_exclude_none_no_null|].
      destruct (dict_exclude_none_unset r) as (Hcs & Hti & _).
      split; [exact Hcs|]. split; [exact Hti|].
      split; [apply dict_error | by apply dict_errorBody].
Qed.

Lemma local_image_captcha_state (f : string) (st : State) :
  (_local_image_captcha f st).2 = log_event (EvOpenRead f) st.
Proof.
  unfold _local_image_captcha, open_rb_read. state_simpl.
  destruct (resolve (fs st) f); reflexivity.
Qed.

(** Without a URL in play the handlers only ever read the disk. *)
Lemma no_cache_without_url (link file : option string) (b64 : option bytes)
    (kw : Kwargs) (st : State) :
  truthy_str file <> None \/ truthy_bytes b64 <> None ->
  exists st1 : State,
    fs st1 = fs st /\ uuid_drawn st1 = uuid_drawn st /\
    _image_name st1 = _image_name st /\
    Forall (fun ev => exists p, ev = EvOpenRead p)
      (drop (List.length (trace st)) (trace st1)) /\
    (handler link file b64 kw st =
       BaseCaptcha__processing_response kw (log_event EvSubmit st1) \/
     exists e, handler link file b64 kw st = (Raise e, st1)) /\
    (aio_handler link file b64 kw st =
       BaseCaptcha__aio_processing_response (log_event EvSubmit st1) \/
     exists e, aio_handler link file b64 kw st = (Raise e, st1)).
Proof.
  intros Hsrc. destruct (truthy_str file) as [f|] eqn:Hf.
  - rewrite (captcha_handler_file _ _ _ _ _ _ Hf),
      (aio_captcha_handler_file _ _ _ _ _ _ Hf).
    pose proof (local_image_captcha_state f st) as Hst.
    destruct (_local_image_captcha f st) as [[content|e] st1].
    all: cbn [snd] in Hst; subst st1.
    + eexists. split; [|split; [|split; [|split; [|split]]]].
      5,6: left; reflexivity.
      all: state_simpl; try reflexivity.
      rewrite drop_app_length. repeat constructor. by eexists.
    + eexists. split; [|split; [|split; [|split; [|split]]]].
      5,6: right; eexists; reflexivity.
      all: state_simpl; try reflexivity.
      rewrite drop_app_length. repeat constructor. by eexists.
  - destruct (truthy_bytes b64) as [b|] eqn:Hb; [|by destruct Hsrc].
    rewrite (captcha_handler_bytes _ _ _ _ _ _ Hf Hb),
      (aio_captcha_handler_bytes _ _ _ _ _ _ Hf Hb).
    eexists. split; [|split; [|split; [|split; [|split]]]].
    5,6: left; reflexivity.
    all: state_simpl; try reflexivity.
    rewrite drop_ge by lia. constructor.
Qed.


(** C8. Teardown calls [shutil.rmtree] on the storage path exactly when
    the save format is persistent and clearing is on: then, if the path
    names an existing directory (by an ordinary last component and without
    [..]), the call returns, nothing is left at or below the directory and
    every other node is as before; otherwise the call leaves the whole
    state, disk and trace included, as it was. *)
Theorem C8_teardown (st : State) :
  (save_format st = SaveFormatsEnm.CONST -> img_clearing st = true ->
   trace (__del__ st).2 = (trace st ++ [EvRmtree (img_path st)])%list /\
   (forall dir : list string,
       has_dotdot (img_path st) = false ->
       resolve (fs st) (img_path st) = Found dir LastNorm ->
       (__del__ st).1 = Return tt /\
       (forall k : list string,
           dir `prefix_of` k -> fs (__del__ st).2 !! k = None) /\
       (forall k : list string,
           ¬ (dir `prefix_of` k) -> fs (__del__ st).2 !! k = fs st !! k))) /\
  (save_format st <> SaveFormatsEnm.CONST \/ img_clearing st = false ->
   __del__ st = (Return tt, st)).
Proof.
  split.
  - intros Hfmt Hclr. unfold __del__. rewrite Hfmt, Hclr. cbn [String.eqb andb].
    change (String.eqb SaveFormatsEnm.CONST SaveFormatsEnm.CONST) with true.
    cbn [andb]. split.
    + unfold shutil_rmtree. state_simpl.
      destruct (resolve (fs st) (img_path st)); try reflexivity.
      cbn zeta. by destruct (os_rmdir _ _).
    + intros dir Hdd Hres. rewrite (rmtree_directory _ dir) by done.
      state_simpl. split; [reflexivity|].
      split; intros k Hk; rewrite rmtree_lookup.
      * by rewrite decide_True.
      * by rewrite decide_False.
  - intros Hoff. unfold __del__.
    destruct Hoff as [Hfmt|Hclr].
    + apply String.eqb_neq in Hfmt. by rewrite Hfmt.
    + rewrite Hclr. by rewrite andb_false_r.
Qed.

(** C9. Persistent mode with clearing on, and a storage path at which
    nothing exists: teardown calls [shutil.rmtree] on that path and the
    call raises, leaving the disk as it was: [NotADirectoryError] when the
    path runs through a regular file, [FileNotFoundError] otherwise.  This
    is the state of an object on which no fetch ever succeeded, such as
    one whose only call had no input. *)
Theorem C9_teardown_missing_directory (st : State) :
  save_format st = SaveFormatsEnm.CONST -> img_clearing st = true ->
  os_path_exists (fs st) (img_path st) = false ->
  let e := match resolve (fs st) (img_path st) with
           | ENOTDIR => NotADirectoryError (img_path st)
           | _ => FileNotFoundError (img_path st)
           end in
  __del__ st = (Raise e, log_event (EvRmtree (img_path st)) st) /\
  (forall (link file : option string) (b64 : option bytes) (kw : Kwargs),
      truthy_str file = None -> truthy_bytes b64 = None ->
      truthy_str link = None ->
      (__del__ (handler link file b64 kw st).2).1 = Raise e /\
      (__del__ (aio_handler link file b64 kw st).2).1 = Raise e).
Proof.
  intros Hfmt Hclr Hmissing e.
  assert (Hdel : forall st0 : State,
             save_format st0 = save_format st ->
             img_clearing st0 = img_clearing st ->
             img_path st0 = img_path st -> fs st0 = fs st ->
             __del__ st0 =
               (Raise e, log_event (EvRmtree (img_path st)) st0)).
  { intros st0 E1 E2 E3 E4. unfold __del__. rewrite E1, E2, E3, Hfmt, Hclr.
    change (String.eqb SaveFormatsEnm.CONST SaveFormatsEnm.CONST) with true.
    cbn [andb]. unfold shutil_rmtree. state_simpl. rewrite E4.
    unfold os_path_exists in Hmissing. unfold e.
    by destruct (resolve (fs st) (img_path st)). }
  split; [by apply Hdel|].
  intros link file b64 kw Hf Hb Hl.
  rewrite (captcha_handler_none _ _ _ _ _ Hf Hb Hl),
    (aio_captcha_handler_none _ _ _ _ _ Hf Hb Hl).
  cbn [snd]. by rewrite Hdel.
Qed.

(** C10. On the zero-input path and whenever the fetch raises, the
    payload mapping after the call is the payload mapping before it. *)
Theorem C10_payload_untouched_on_local_errors (link file : option string)
    (b64 : option bytes) (kw : Kwargs) (st : State) :
  truthy_str file = None -> truthy_bytes b64 = None ->
  (truthy_str link = None ->
   post_payload (handler link file b64 kw st).2 = post_payload st /\
   post_payload (aio_handler link file b64 kw st).2 = post_payload st) /\
  (forall (url : string) (e : exn),
      truthy_str link = Some url ->
      (BaseCaptcha_url_open url kw st = Raise e ->
       post_payload (handler link file b64 kw st).2 = post_payload st) /\
      (BaseCaptcha_aio_url_read url kw st = Raise e ->
       post_payload (aio_handler link file b64 kw st).2 = post_payload st)).
Proof.
  intros Hf Hb. split.
  - intros Hl.
    by rewrite (captcha_handler_none _ _ _ _ _ Hf Hb Hl),
      (aio_captcha_handler_none _ _ _ _ _ Hf Hb Hl).
  - intros url e Hl. split; intros Hr.
    + rewrite (captcha_handler_fetch_raise _ _ _ _ _ _ _ Hf Hb Hl Hr).
      by destruct (isinstance_Exception e).
    + rewrite (aio_captcha_handler_fetch_raise _ _ _ _ _ _ _ Hf Hb Hl Hr).
      by destruct (isinstance_Exception e).
Qed.

(** ** Further properties of the module *)

(** *** More on directory creation *)

(** After a successful call every directory on the way exists. *)
Lemma mkdir_parents_prefix_dir (p : string) (todo : list string) :
  forall (cur : list string) (f f' : FS),
    mkdir_parents p cur todo f = (None, f') ->
    forall pre : list string,
      pre <> [] -> pre `prefix_of` todo -> f' !! (cur ++ pre)%list = Some Dir.
Proof.
  induction todo as [|seg rest IH]; intros cur f f' Hrun pre Hne Hpre.
  - apply prefix_nil_inv in Hpre. congruence.
  - destruct pre as [|seg0 pre']; [done|].
    apply prefix_cons_inv_1 in Hpre as Hseg. subst seg0.
    apply prefix_cons_inv_2 in Hpre.
    rewrite mkdir_parents_cons in Hrun.
    replace (cur ++ seg :: pre')%list with ((cur ++ [seg]) ++ pre')%list
      by (by rewrite <- app_assoc).
    destruct pre' as [|seg1 pre''].
    + rewrite app_nil_r.
      destruct (f !! (cur ++ [seg])%list) as [[|c]|] eqn:Hcur; [| done |].
      * by apply (mkdir_parents_mono _ _ _ _ _ _ Hrun).
      * apply (mkdir_parents_mono _ _ _ _ _ _ Hrun). apply lookup_insert_eq.
    + destruct (f !! (cur ++ [seg])%list) as [[|c]|] eqn:Hcur; [| done |];
        eapply IH; eauto.
Qed.

(** A node off the way to the target is not touched. *)
Lemma mkdir_parents_off_path (p : string) (todo : list string) :
  forall (cur : list string) (f f' : FS) (e : option exn),
    mkdir_parents p cur todo f = (e, f') ->
    forall k : list string,
      ¬ (k `prefix_of` (cur ++ todo)%list /\
         (List.length cur < List.length k)%nat) ->
      f' !! k = f !! k.
Proof.
  induction todo as [|seg rest IH]; intros cur f f' e Hrun k Hoff.
  - rewrite mkdir_parents_nil in Hrun. by simplify_eq.
  - rewrite mkdir_parents_cons in Hrun.
    assert (Hlen : List.length (cur ++ [seg])%list = S (List.length cur)).
    { rewrite length_app. cbn [List.length]. lia. }
    assert (Hoff' : ¬ (k `prefix_of` ((cur ++ [seg]) ++ rest)%list /\
                       (List.length (cur ++ [seg]) < List.length k)%nat)).
    { intros [Hk Hl]. apply Hoff. rewrite <- app_assoc in Hk. split; [done|lia]. }
    destruct (f !! (cur ++ [seg])%list) as [[|c]|] eqn:Hcur.
    + eapply IH; eauto.
    + by simplify_eq.
    + rewrite (IH _ _ _ _ Hrun k Hoff'). apply lookup_insert_ne.
      intros <-. apply Hoff. split; [|lia].
      exists rest. by rewrite <- app_assoc.
Qed.

(** On a path whose directories all exist the call changes nothing. *)
Lemma mkdir_parents_existing (p : string) (todo : list string) :
  forall (cur : list string) (f : FS),
    (forall pre : list string,
        pre <> [] -> pre `prefix_of` todo -> f !! (cur ++ pre)%list = Some Dir) ->
    mkdir_parents p cur todo f = (None, f).
Proof.
  induction todo as [|seg rest IH]; intros cur f Hdirs; [reflexivity|].
  rewrite mkdir_parents_cons.
  rewrite (Hdirs [seg]); [|done|by apply prefix_cons, prefix_nil].
  apply IH. intros pre Hne Hpre. rewrite <- app_assoc. cbn [app].
  apply Hdirs; [done|]. by apply prefix_cons.
Qed.

(** A regular file on the way makes the call fail. *)
Lemma mkdir_parents_blocked (p : string) (todo : list string) :
  forall (cur : list string) (f : FS),
    (exists (k : list string) (c : bytes),
        k `prefix_of` (cur ++ todo)%list /\
        (List.length cur < List.length k)%nat /\ f !! k = Some (File c)) ->
    exists (e : exn) (f' : FS),
      mkdir_parents p cur todo f = (Some e, f') /\
      (e = FileExistsError p \/ e = NotADirectoryError p).
Proof.
  induction todo as [|seg rest IH]; intros cur f (k & c & Hk & Hlen & Hfile).
  - rewrite app_nil_r in Hk. apply prefix_length in Hk. lia.
  - rewrite mkdir_parents_cons.
    assert (Hlen1 : List.length (cur ++ [seg])%list = S (List.length cur)).
    { rewrite length_app. cbn [List.length]. lia. }
    assert (Hpre : (cur ++ [seg])%list `prefix_of` (cur ++ seg :: rest)%list).
    { exists rest. by rewrite <- app_assoc. }
    destruct (f !! (cur ++ [seg])%list) as [[|c0]|] eqn:Hcur.
    + apply IH. exists k, c. rewrite <- app_assoc. split; [done|].
      split; [|done].
      destruct (decide (List.length k = S (List.length cur))) as [E|]; [|lia].
      assert (k = (cur ++ [seg])%list); [|congruence].
      destruct (prefix_weak_total _ _ _ Hk Hpre) as [H1|H1];
        apply prefix_length_eq in H1; (done || lia).
    + eexists _, _. split; [reflexivity|]. destruct rest; auto.
    + apply IH. exists k, c. rewrite <- app_assoc. split; [done|].
      assert (k <> (cur ++ [seg])%list) by congruence.
      split.
      * destruct (decide (List.length k = S (List.length cur))) as [E|]; [|lia].
        exfalso. apply H.
        destruct (prefix_weak_total _ _ _ Hk Hpre) as [H1|H1];
          apply prefix_length_eq in H1; (done || lia).
      * by rewrite lookup_insert_ne.
Qed.

(** *** The cache manager on its own *)



(** X8. When the storage directory and its parents exist and the
    generated name is not that of a directory, a call of
    [_image_const_saver] sets exactly one node of the disk, the image
    file: it is created when the name was free (one node more) and
    overwritten when a file of that name was there (the same number of
    nodes); every other node, directory or file, is as before. *)
Theorem X8_saver_sets_one_file (content : bytes) (dir : string) (st : State) :
  (forall pre : list string,
      pre <> [] -> pre `prefix_of` parts dir -> fs st !! pre = Some Dir) ->
  fs st !! (parts dir ++ [image_name (uuid_stream st (uuid_drawn st))])%list
    <> Some Dir ->
  let name := image_name (uuid_stream st (uuid_drawn st)) in
  exists st' : State,
    _image_const_saver content dir st = (Return tt, st') /\
    fs st' = <[(parts dir ++ [name])%list := File content]> (fs st) /\
    (forall k : list string,
        k <> (parts dir ++ [name])%list -> fs st' !! k = fs st !! k) /\
    size (fs st') =
      match fs st !! (parts dir ++ [name])%list with
      | Some _ => size (fs st)
      | None => S (size (fs st))
      end /\
    _image_name st' = Some name.
Proof.
  intros Hdirs Hfree name.
  pose proof (mkdir_parents_existing dir (parts dir) [] (fs st) Hdirs) as Hrun.
  exists (saved content dir (fs st) st). split.
  - by apply image_const_saver_ok.
  - unfold saved. state_simpl. fold name. split; [done|]. split; [|split].
    + intros k Hk. by rewrite lookup_insert_ne.
    + rewrite map_size_insert.
      by destruct (fs st !! (parts dir ++ [name])%list).
    + done.
Qed.


(** [_image_const_saver] changes the disk, the UUID counter, the trace and
    [_image_name]; the rest of the object is as before, whatever happens. *)
Lemma image_const_saver_keeps (content : bytes) (dir : string) (st : State) :
  let st' := (_image_const_saver content dir st).2 in
  save_format st' = save_format st /\ img_clearing st' = img_clearing st /\
  img_path st' = img_path st /\ post_payload st' = post_payload st /\
  result st' = result st /\ uuid_stream st' = uuid_stream st.
Proof.
  unfold _image_const_saver, Path_mkdir, uuid_uuid4, open_wb_write.
  run_monad. state_simpl.
  destruct (mkdir_parents dir [] (parts dir) (fs st)) as [[e|] f'];
    state_simpl; [done|].
  destruct (String.eqb _ ""); [done|].
  destruct (parts (os_path_join _ _)) as [|seg rest]; [done|].
  destruct (is_dir f' _).
  - destruct (f' !! (seg :: rest)) as [[|c]|]; done.
  - destruct (f' !! removelast (seg :: rest)) as [[|c]|]; done.
Qed.

(** *** The file-path branch *)

(** X2. With a file path that resolves to a regular file, both handlers
    call the submission collaborator on the object whose payload differs
    from the old one at ["body"] only, which holds the base64 text of the
    file's content (decoding it gives the content back).  The disk is only
    read, and the collaborator's answer is returned as it is. *)
Theorem X2_file_path_encodes_file_content (link : option string)
    (b64 : option bytes) (kw : Kwargs) (f : string) (k : list string)
    (c : bytes) (st : State) :
  resolve (fs st) f = FoundFile k c ->
  exists st' : State,
    handler link (Some f) b64 kw st = BaseCaptcha__processing_response kw st' /\
    aio_handler link (Some f) b64 kw st =
      BaseCaptcha__aio_processing_response st' /\
    post_payload st' = <["body" := Base64.b64encode c]> (post_payload st) /\
    (body ← post_payload st' !! "body"; Base64.b64decode body) = Some c /\
    fs st' = fs st /\ result st' = result st /\
    trace st' = (trace st ++ [EvOpenRead f; EvSubmit])%list.
Proof.
  intros Hfile.
  assert (Hf : f <> "") by (intros ->; discriminate Hfile).
  pose proof (truthy_str_Some f Hf) as Ht.
  assert (Hread : _local_image_captcha f st =
                    (Return c, log_event (EvOpenRead f) st)).
  { unfold _local_image_captcha, open_rb_read. state_simpl.
    by rewrite Hfile. }
  eexists. split; [|split].
  - rewrite (captcha_handler_file _ _ _ _ _ _ Ht), Hread. reflexivity.
  - rewrite (aio_captcha_handler_file _ _ _ _ _ _ Ht), Hread. reflexivity.
  - state_simpl. split; [done|]. rewrite lookup_insert_eq.
    cbn [mbind option_bind]. rewrite b64decode_b64encode.
    repeat split. by rewrite <- app_assoc.
Qed.

(** X3. A non-empty file path that does not resolve to a regular file
    makes both handlers raise: [IsADirectoryError] when it resolves to a
    directory, [NotADirectoryError] when it runs through a regular file
    (a trailing slash after a file included), [FileNotFoundError] when a
    component is missing.  The error is not turned into a result mapping,
    the raw bytes and the URL are not tried instead, and the payload, the
    result and the disk are as before. *)
Theorem X3_unreadable_file_propagates (link : option string)
    (b64 : option bytes) (kw : Kwargs) (f : string) (st : State) :
  f <> "" ->
  (forall (k : list string) (c : bytes),
      resolve (fs st) f <> FoundFile k c) ->
  let e := match resolve (fs st) f with
           | Found _ _ => IsADirectoryError f
           | ENOTDIR => NotADirectoryError f
           | _ => FileNotFoundError f
           end in
  handler link (Some f) b64 kw st = (Raise e, log_event (EvOpenRead f) st) /\
  aio_handler link (Some f) b64 kw st =
    (Raise e, log_event (EvOpenRead f) st).
Proof.
  intros Hf Hno e. pose proof (truthy_str_Some f Hf) as Ht.
  assert (Hread : _local_image_captcha f st =
                    (Raise e, log_event (EvOpenRead f) st)).
  { unfold _local_image_captcha, open_rb_read, e. state_simpl.
    destruct (resolve (fs st) f) as [k l|k c| |] eqn:E; try done.
    by destruct (Hno k c). }
  by rewrite (captcha_handler_file _ _ _ _ _ _ Ht),
    (aio_captcha_handler_file _ _ _ _ _ _ Ht), Hread.
Qed.

(** *** The remote-URL branch *)

(** X4. What the fetch raises is absorbed only if it is an [Exception]:
    a [KeyboardInterrupt] or a [CancelledError] leaves both handlers as it
    came, and the result of the object is not marked as an error. *)
Theorem X4_non_exception_propagates (link file : option string)
    (b64 : option bytes) (kw : Kwargs) (url : string) (e : exn) (st : State) :
  truthy_str file = None -> truthy_bytes b64 = None ->
  truthy_str link = Some url -> isinstance_Exception e = false ->
  (BaseCaptcha_url_open url kw st = Raise e ->
   handler link file b64 kw st = (Raise e, log_event (EvFetch url kw) st)) /\
  (BaseCaptcha_aio_url_read url kw st = Raise e ->
   aio_handler link file b64 kw st = (Raise e, log_event (EvFetch url kw) st)) /\
  result (log_event (EvFetch url kw) st) = result st.
Proof.
  intros Hf Hb Hl He. split; [|split; [|reflexivity]]; intros Hr.
  - by rewrite (captcha_handler_fetch_raise _ _ _ _ _ _ _ Hf Hb Hl Hr), He.
  - by rewrite (aio_captcha_handler_fetch_raise _ _ _ _ _ _ _ Hf Hb Hl Hr),
      He.
Qed.

(** X5. Persistent mode, successful fetch, and a regular file on the way
    to the storage directory: directory creation raises
    ([FileExistsError] or [NotADirectoryError]) and the error leaves both
    handlers.  No UUID is drawn, nothing is written, the payload gets no
    body, no node of the disk is lost and the submission collaborator is
    not called. *)
Theorem X5_blocked_storage_path_propagates (link file : option string)
    (b64 : option bytes) (kw : Kwargs) (url : string) (content : bytes)
    (st : State) :
  truthy_str file = None -> truthy_bytes b64 = None ->
  truthy_str link = Some url ->
  save_format st = SaveFormatsEnm.CONST ->
  (exists (k : list string) (c : bytes),
      k <> [] /\ k `prefix_of` parts (img_path st) /\
      fs st !! k = Some (File c)) ->
  exists (e : exn) (st' : State),
    (e = FileExistsError (img_path st) \/
     e = NotADirectoryError (img_path st)) /\
    (BaseCaptcha_url_open url kw st = Return content ->
     handler link file b64 kw st = (Raise e, st')) /\
    (BaseCaptcha_aio_url_read url kw st = Return content ->
     aio_handler link file b64 kw st = (Raise e, st')) /\
    post_payload st' = post_payload st /\ result st' = result st /\
    uuid_drawn st' = uuid_drawn st /\ _image_name st' = _image_name st /\
    (forall (k : list string) (v : node),
        fs st !! k = Some v -> fs st' !! k = Some v) /\
    trace st' = (trace st ++ [EvFetch url kw; EvMkdir (img_path st)])%list.
Proof.
  intros Hf Hb Hl Hfmt (k & c & Hk & Hpre & Hfile).
  destruct (mkdir_parents_blocked (img_path st) (parts (img_path st)) []
              (fs st)) as (e & f' & Hrun & He).
  { exists k, c. split; [done|]. split; [|done].
    destruct k; [done|]. cbn [List.length]. lia. }
  set (st1 := log_event (EvFetch url kw) st).
  pose proof (image_const_saver_blocked content (img_path st) e f' st1 Hrun)
    as Hsave.
  exists e, (set_fs f' (log_event (EvMkdir (img_path st)) st1)).
  split; [exact He|]. split; [|split].
  - intros Hr.
    rewrite (captcha_handler_fetch_ok _ _ _ _ _ _ _ Hf Hb Hl Hr).
    cbv zeta. rewrite Hfmt. cbn [String.eqb]. fold st1. by rewrite Hsave.
  - intros Hr.
    rewrite (aio_captcha_handler_fetch_ok _ _ _ _ _ _ _ Hf Hb Hl Hr).
    cbv zeta. rewrite Hfmt. cbn [String.eqb]. fold st1. by rewrite Hsave.
  - subst st1. state_simpl. repeat split.
    + intros k0 v Hk0. by apply (mkdir_parents_mono _ _ _ _ _ _ Hrun).
    + by rewrite <- app_assoc.
Qed.

(** *** Teardown *)

Lemma del_existing_directory (dir : list string) (st : State) :
  save_format st = SaveFormatsEnm.CONST -> img_clearing st = true ->
  has_dotdot (img_path st) = false ->
  resolve (fs st) (img_path st) = Found dir LastNorm ->
  __del__ st =
    (Return tt,
     set_fs (delete dir (filter (fun kv => ¬ below dir kv.1) (fs st)))
       (log_event (EvRmtree (img_path st)) st)).
Proof.
  intros Hfmt Hclr Hdd Hres. unfold __del__. rewrite Hfmt, Hclr.
  change (String.eqb SaveFormatsEnm.CONST SaveFormatsEnm.CONST) with true.
  cbn [andb]. by apply rmtree_directory.
Qed.

(** X6. For a storage path without [..], teardown returns without raising
    exactly when there is nothing to clear (the save format is not
    persistent or clearing is off) or the path resolves to a directory and
    ends in an ordinary name.  In every other case (a missing component, a
    regular file on the way or at the end, the empty path, a path ending
    in [.], the root) it raises. *)
Theorem X6_teardown_succeeds_iff (st : State) :
  has_dotdot (img_path st) = false ->
  (__del__ st).1 = Return tt <->
  (save_format st <> SaveFormatsEnm.CONST \/ img_clearing st = false \/
   exists dir : list string,
     resolve (fs st) (img_path st) = Found dir LastNorm).
Proof.
  intros Hdd. unfold __del__.
  destruct (String.eqb (save_format st) SaveFormatsEnm.CONST) eqn:Hfmt.
  2:{ apply String.eqb_neq in Hfmt. cbn [andb]. split; auto. }
  apply String.eqb_eq in Hfmt.
  destruct (img_clearing st) eqn:Hclr; cbn [andb].
  2:{ split; auto. }
  split.
  - intros Hret. right. right. revert Hret.
    unfold shutil_rmtree. state_simpl.
    destruct (resolve (fs st) (img_path st)) as [k l|k c| |] eqn:Hres;
      [|discriminate..].
    cbn zeta. unfold os_rmdir.
    destruct (resolve (filter _ _) _) as [k' l'|k' c'| |] eqn:Hres';
      [|discriminate..].
    intros Hret. exists k. f_equal.
    assert (l' = LastNorm) as -> by (destruct l'; done || discriminate Hret).
    revert Hres Hres'. unfold resolve.
    destruct (String.eqb (img_path st) ""); [discriminate|].
    intros Hres Hres'.
    apply walk_last in Hres; [|done]. apply walk_last in Hres'; [|done].
    congruence.
  - intros [Hne|[Hoff|[dir Hres]]]; [done | done |].
    by rewrite (rmtree_directory _ dir).
Qed.

(** X13. Teardown is not idempotent: after a teardown that removed the
    storage directory (named without [..] and by an ordinary last
    component), a second one finds the path missing and raises
    [FileNotFoundError]. *)
Theorem X13_second_teardown_raises (dir : list string) (st : State) :
  save_format st = SaveFormatsEnm.CONST -> img_clearing st = true ->
  has_dotdot (img_path st) = false ->
  resolve (fs st) (img_path st) = Found dir LastNorm ->
  (__del__ st).1 = Return tt /\
  (__del__ (__del__ st).2).1 = Raise (FileNotFoundError (img_path st)) /\
  (__del__;; __del__) st =
    (Raise (FileNotFoundError (img_path st)),
     log_event (EvRmtree (img_path st)) (__del__ st).2).
Proof.
  intros Hfmt Hclr Hdd Hres.
  pose proof (del_existing_directory dir st Hfmt Hclr Hdd Hres) as Hfirst.
  set (st1 := set_fs _ _) in Hfirst.
  assert (Hdel : __del__ st1 =
                   (Raise (FileNotFoundError (img_path st)),
                    log_event (EvRmtree (img_path st)) st1)).
  { unfold __del__. subst st1. state_simpl. rewrite Hfmt, Hclr.
    change (String.eqb SaveFormatsEnm.CONST SaveFormatsEnm.CONST) with true.
    cbn [andb]. by apply (rmtree_gone _ dir (fs st)). }
  unfold mbind, M_bind, bind. rewrite Hfirst. cbn [fst snd].
  by rewrite Hdel.
Qed.

Lemma last_kind_parts (segs : list string) :
  forall last : last_type,
  last_kind last segs = LastNorm ->
  last = LastNorm \/ List.filter real_component segs <> [].
Proof.
  induction segs as [|seg rest IH]; intros last Hl.
  - by left.
  - revert Hl. cbn [last_kind List.filter]. unfold real_component at 1.
    destruct (String.eqb seg "") eqn:Hempty; [by auto|].
    destruct (String.eqb seg ".") eqn:Hdot; cbn [negb andb].
    + intros Hl. apply IH in Hl as [?|?]; [done|by right].
    + intros _. by right.
Qed.

Lemma names_directly_parts (p : string) :
  names_directly p = true -> parts p <> [].
Proof.
  intros Hp. apply names_directly_inv in Hp as (_ & Hl & _).
  by apply last_kind_parts in Hl as [?|?].
Qed.

(** What teardown leaves of a disk on which the storage directory was
    created and one image saved. *)
Lemma teardown_after_save (dir : string) (f f' : FS) (target : list string)
    (c : bytes) (st2 : State) :
  mkdir_parents dir [] (parts dir) f = (None, f') ->
  names_directly dir = true ->
  parts dir `prefix_of` target -> target <> parts dir ->
  save_format st2 = SaveFormatsEnm.CONST -> img_clearing st2 = true ->
  img_path st2 = dir -> fs st2 = <[target := File c]> f' ->
  (__del__ st2).1 = Return tt /\
  (forall k : list string,
      parts dir `prefix_of` k -> fs (__del__ st2).2 !! k = None) /\
  (forall pre : list string,
      pre <> [] -> pre `prefix_of` parts dir -> pre <> parts dir ->
      fs (__del__ st2).2 !! pre = Some Dir) /\
  (forall k : list string,
      ¬ (parts dir `prefix_of` k) -> ¬ (k `prefix_of` parts dir) ->
      fs (__del__ st2).2 !! k = f !! k).
Proof.
  intros Hrun Hplain Htarget Hneq Hfmt Hclr Hpath Hfs.
  assert (Hres : resolve (fs st2) (img_path st2) = Found (parts dir) LastNorm).
  { rewrite Hpath. apply resolve_directly; [done|].
    intros pre Hpne Hpre. rewrite Hfs, lookup_insert_ne.
    - by apply (mkdir_parents_prefix_dir _ _ _ _ _ Hrun pre).
    - intros E. subst pre. apply Hneq. by apply (anti_symm prefix). }
  rewrite (del_existing_directory (parts dir) st2 Hfmt Hclr); [|
    rewrite Hpath; by apply names_directly_inv in Hplain as (? & _)|done].
  state_simpl. split; [reflexivity|]. split; [|split].
  - intros k Hk. rewrite rmtree_lookup. by rewrite decide_True.
  - intros pre Hpne Hpre Hproper. rewrite rmtree_lookup, decide_False.
    + rewrite Hfs, lookup_insert_ne.
      * by apply (mkdir_parents_prefix_dir _ _ _ _ _ Hrun pre).
      * intros E. subst pre. apply Hproper.
        by apply (anti_symm prefix).
    + intros Hk. apply Hproper. by apply (anti_symm prefix).
  - intros k Hk1 Hk2. rewrite rmtree_lookup, decide_False by done.
    rewrite Hfs, lookup_insert_ne by (intros E; by subst k).
    apply (mkdir_parents_off_path _ _ _ _ _ _ Hrun). cbn [app]. tauto.
Qed.

(** X9. Persistent mode with clearing on, a storage path without [..]
    that ends in an ordinary name (trailing slashes apart), a successful
    fetch, and a submission collaborator that leaves the disk and the
    configuration alone.  After
    the handler call, teardown returns, nothing is left at or below the
    storage directory, and every node that is neither above nor below it
    is as before the call.  The parent directories the call had to create
    are not removed: every directory strictly above the storage directory
    exists afterwards. *)
Theorem X9_fetch_then_teardown (link file : option string)
    (b64 : option bytes) (kw : Kwargs) (url : string) (content : bytes)
    (st : State) :
  truthy_str file = None -> truthy_bytes b64 = None ->
  truthy_str link = Some url ->
  save_format st = SaveFormatsEnm.CONST -> img_clearing st = true ->
  names_directly (img_path st) = true ->
  (forall (k : list string) (c : bytes),
      k <> [] -> k `prefix_of` parts (img_path st) ->
      fs st !! k <> Some (File c)) ->
  fs st !! (parts (img_path st) ++
            [image_name (uuid_stream st (uuid_drawn st))])%list <> Some Dir ->
  let dir := parts (img_path st) in
  let cleared (st2 : State) :=
    (__del__ st2).1 = Return tt /\
    (forall k : list string, dir `prefix_of` k -> fs (__del__ st2).2 !! k = None) /\
    (forall pre : list string,
        pre <> [] -> pre `prefix_of` dir -> pre <> dir ->
        fs (__del__ st2).2 !! pre = Some Dir) /\
    (forall k : list string,
        ¬ (dir `prefix_of` k) -> ¬ (k `prefix_of` dir) ->
        fs (__del__ st2).2 !! k = fs st !! k) in
  ((forall kw0 s,
       let s' := (BaseCaptcha__processing_response kw0 s).2 in
       fs s' = fs s /\ save_format s' = save_format s /\
       img_clearing s' = img_clearing s /\ img_path s' = img_path s) ->
   BaseCaptcha_url_open url kw st = Return content ->
   cleared (handler link file b64 kw st).2) /\
  ((forall s,
       let s' := (BaseCaptcha__aio_processing_response s).2 in
       fs s' = fs s /\ save_format s' = save_format s /\
       img_clearing s' = img_clearing s /\ img_path s' = img_path s) ->
   BaseCaptcha_aio_url_read url kw st = Return content ->
   cleared (aio_handler link file b64 kw st).2).
Proof.
  intros Hf Hb Hl Hfmt Hclr Hplain Hfree Htarget dir cleared.
  destruct (mkdir_parents_ok (img_path st) dir [] (fs st)) as [f' Hrun].
  { intros k c Hk Hlen. apply Hfree; [|done].
    intros ->. cbn [List.length] in Hlen. lia. }
  set (st1 := log_event (EvFetch url kw) st).
  pose proof (image_const_saver_ok content (img_path st) f' st1 Hrun Htarget)
    as Hsave.
  set (target := (dir ++ [image_name (uuid_stream st (uuid_drawn st))])%list).
  assert (Hbelow : dir `prefix_of` target) by (by eexists).
  assert (Hstrict : target <> dir).
  { intros E. apply (f_equal List.length) in E. unfold target in E.
    rewrite length_app in E. cbn [List.length] in E. lia. }
  split; intros Hframe Hr.
  - rewrite (captcha_handler_fetch_ok _ _ _ _ _ _ _ Hf Hb Hl Hr).
    cbv zeta. rewrite Hfmt.
    change (String.eqb SaveFormatsEnm.CONST SaveFormatsEnm.CONST) with true.
    fold st1. rewrite Hsave. cbv beta iota.
    match goal with
    | |- cleared (BaseCaptcha__processing_response kw ?s).2 =>
        destruct (Hframe kw s) as (Hfs & Hsf & Hic & Hip)
    end.
    apply (teardown_after_save (img_path st) (fs st) f' target content);
      try done.
    + by rewrite Hsf.
    + by rewrite Hic.
  - rewrite (aio_captcha_handler_fetch_ok _ _ _ _ _ _ _ Hf Hb Hl Hr).
    cbv zeta. rewrite Hfmt.
    change (String.eqb SaveFormatsEnm.CONST SaveFormatsEnm.CONST) with true.
    fold st1. rewrite Hsave. cbv beta iota.
    match goal with
    | |- cleared (BaseCaptcha__aio_processing_response ?s).2 =>
        destruct (Hframe s) as (Hfs & Hsf & Hic & Hip)
    end.
    apply (teardown_after_save (img_path st) (fs st) f' target content);
      try done.
    + by rewrite Hsf.
    + by rewrite Hic.
Qed.

(** *** All branches together *)

(** X12. An empty string and an empty bytes value are treated as absent:
    two calls whose arguments have the same truthy values (an empty value
    counting as [None]) behave in the same way, on every state. *)
Theorem X12_empty_is_absent (link link' file file' : option string)
    (b64 b64' : option bytes) (kw : Kwargs) (st : State) :
  truthy_str link = truthy_str link' -> truthy_str file = truthy_str file' ->
  truthy_bytes b64 = truthy_bytes b64' ->
  handler link file b64 kw st = handler link' file' b64' kw st /\
  aio_handler link file b64 kw st = aio_handler link' file' b64' kw st.
Proof.
  intros Hl Hf Hb. unfold captcha_handler, aio_captcha_handler.
  by rewrite Hl, Hf, Hb.
Qed.

(** X10. The handlers never reset the result of the object.  After a
    zero-input call has set the error flag, a following call with raw
    bytes hands the submission collaborator an object whose result still
    has [error] true and [errorBody] the zero-input message. *)
Theorem X10_error_flag_survives (link file link2 file2 : option string)
    (b64 : option bytes) (b : bytes) (kw kw2 : Kwargs) (st : State) :
  truthy_str file = None -> truthy_bytes b64 = None ->
  truthy_str link = None ->
  truthy_str file2 = None -> b <> [] ->
  exists st' : State,
    handler link2 file2 (Some b) kw2 (handler link file b64 kw st).2 =
      BaseCaptcha__processing_response kw2 st' /\
    aio_handler link2 file2 (Some b) kw2 (aio_handler link file b64 kw st).2 =
      BaseCaptcha__aio_processing_response st' /\
    error (result st') = true /\
    errorBody (result st') = PyStr NO_CAPTCHA_ERR /\
    captchaSolve (result st') = captchaSolve (result st) /\
    taskId (result st') = taskId (result st).
Proof.
  intros Hf Hb Hl Hf2 Hb2. apply truthy_bytes_Some in Hb2.
  rewrite (captcha_handler_none _ _ _ _ _ Hf Hb Hl),
    (aio_captcha_handler_none _ _ _ _ _ Hf Hb Hl). cbn [snd].
  eexists. split; [by apply captcha_handler_bytes|].
  split; [by apply aio_captcha_handler_bytes|]. done.
Qed.

(** The three ways a blocking call can end. *)
Lemma captcha_handler_outcomes (link file : option string)
    (b64 : option bytes) (kw : Kwargs) (st : State) :
  ((exists (st1 : State) (body : string),
       handler link file b64 kw st = BaseCaptcha__processing_response kw (log_event EvSubmit st1) /\
       post_payload st1 = <["body" := body]> (post_payload st) /\
       result st1 = result st /\ save_format st1 = save_format st /\
       img_clearing st1 = img_clearing st /\ img_path st1 = img_path st) \/
   (exists (e : exn) (st1 : State),
       handler link file b64 kw st = (Raise e, st1) /\
       post_payload st1 = post_payload st /\ result st1 = result st) \/
   (exists (d : pydict) (st1 : State),
       handler link file b64 kw st = (Return d, st1) /\
       d !! "error" = Some (PyBool true) /\
       (exists v : pyval, d !! "errorBody" = Some v /\ is_None v = false) /\
       error (result st1) = true /\
       captchaSolve (result st1) = captchaSolve (result st) /\
       taskId (result st1) = taskId (result st) /\
       post_payload st1 = post_payload st)).
Proof.
  intros.
  destruct (truthy_str file) as [f|] eqn:Hf.
  { rewrite (captcha_handler_file _ _ _ _ _ _ Hf).
    pose proof (local_image_captcha_state f st) as Hst.
    destruct (_local_image_captcha f st) as [[content|e] st1];
      cbn [snd] in Hst; subst st1.
    - left. eexists _, _. split; [reflexivity|]. by state_simpl.
    - right. left. eexists _, _. split; [reflexivity|]. by state_simpl. }
  destruct (truthy_bytes b64) as [b|] eqn:Hb.
  { rewrite (captcha_handler_bytes _ _ _ _ _ _ Hf Hb).
    left. eexists _, _. split; [reflexivity|]. by state_simpl. }
  destruct (truthy_str link) as [url|] eqn:Hl.
  2:{ rewrite (captcha_handler_none _ _ _ _ _ Hf Hb Hl).
      right. right. eexists _, _. split; [reflexivity|]. state_simpl.
      split; [reflexivity|]. split; [by eexists|]. done. }
  destruct (BaseCaptcha_url_open url kw st) as [content|e] eqn:He.
  - rewrite (captcha_handler_fetch_ok _ _ _ _ _ _ _ Hf Hb Hl He). cbv zeta.
    destruct (String.eqb (save_format st) SaveFormatsEnm.CONST).
    + pose proof (image_const_saver_keeps content (img_path st)
                    (log_event (EvFetch url kw) st)) as Hkeep.
      cbv zeta in Hkeep.
      destruct (_image_const_saver content (img_path st) _) as [[[]|e] st2];
        cbn [snd] in Hkeep; state_simpl;
        destruct Hkeep as (K1 & K2 & K3 & K4 & K5 & _).
      * left. eexists _, _. split; [reflexivity|]. state_simpl.
        by rewrite K1, K2, K3, K4, K5.
      * right. left. by eexists _, _.
    + left. eexists _, _. split; [reflexivity|]. by state_simpl.
  - rewrite (captcha_handler_fetch_raise _ _ _ _ _ _ _ Hf Hb Hl He).
    destruct (isinstance_Exception e).
    + right. right. eexists _, _. split; [reflexivity|]. state_simpl.
      split; [apply dict_error|]. split; [|done].
      eexists. split; [by apply dict_errorBody | done].
    + right. left. by eexists _, _.
Qed.

(** The three ways a non-blocking call can end. *)
Lemma aio_captcha_handler_outcomes (link file : option string)
    (b64 : option bytes) (kw : Kwargs) (st : State) :
  ((exists (st1 : State) (body : string),
       aio_handler link file b64 kw st = BaseCaptcha__aio_processing_response (log_event EvSubmit st1) /\
       post_payload st1 = <["body" := body]> (post_payload st) /\
       result st1 = result st /\ save_format st1 = save_format st /\
       img_clearing st1 = img_clearing st /\ img_path st1 = img_path st) \/
   (exists (e : exn) (st1 : State),
       aio_handler link file b64 kw st = (Raise e, st1) /\
       post_payload st1 = post_payload st /\ result st1 = result st) \/
   (exists (d : pydict) (st1 : State),
       aio_handler link file b64 kw st = (Return d, st1) /\
       d !! "error" = Some (PyBool true) /\
       (exists v : pyval, d !! "errorBody" = Some v /\ is_None v = false) /\
       error (result st1) = true /\
       captchaSolve (result st1) = captchaSolve (result st) /\
       taskId (result st1) = taskId (result st) /\
       post_payload st1 = post_payload st)).
Proof.
  intros.
  destruct (truthy_str file) as [f|] eqn:Hf.
  { rewrite (aio_captcha_handler_file _ _ _ _ _ _ Hf).
    pose proof (local_image_captcha_state f st) as Hst.
    destruct (_local_image_captcha f st) as [[content|e] st1];
      cbn [snd] in Hst; subst st1.
    - left. eexists _, _. split; [reflexivity|]. by state_simpl.
    - right. left. eexists _, _. split; [reflexivity|]. by state_simpl. }
  destruct (truthy_bytes b64) as [b|] eqn:Hb.
  { rewrite (aio_captcha_handler_bytes _ _ _ _ _ _ Hf Hb).
    left. eexists _, _. split; [reflexivity|]. by state_simpl. }
  destruct (truthy_str link) as [url|] eqn:Hl.
  2:{ rewrite (aio_captcha_handler_none _ _ _ _ _ Hf Hb Hl).
      right. right. eexists _, _. split; [reflexivity|]. state_simpl.
      split; [reflexivity|]. split; [by eexists|]. done. }
  destruct (BaseCaptcha_aio_url_read url kw st) as [content|e] eqn:He.
  - rewrite (aio_captcha_handler_fetch_ok _ _ _ _ _ _ _ Hf Hb Hl He). cbv zeta.
    destruct (String.eqb (save_format st) SaveFormatsEnm.CONST).
    + pose proof (image_const_saver_keeps content (img_path st)
                    (log_event (EvFetch url kw) st)) as Hkeep.
      cbv zeta in Hkeep.
      destruct (_image_const_saver content (img_path st) _) as [[[]|e] st2];
        cbn [snd] in Hkeep; state_simpl;
        destruct Hkeep as (K1 & K2 & K3 & K4 & K5 & _).
      * left. eexists _, _. split; [reflexivity|]. state_simpl.
        by rewrite K1, K2, K3, K4, K5.
      * right. left. by eexists _, _.
    + left. eexists _, _. split; [reflexivity|]. by state_simpl.
  - rewrite (aio_captcha_handler_fetch_raise _ _ _ _ _ _ _ Hf Hb Hl He).
    destruct (isinstance_Exception e).
    + right. right. eexists _, _. split; [reflexivity|]. state_simpl.
      split; [apply dict_error|]. split; [|done].
      eexists. split; [by apply dict_errorBody | done].
    + right. left. by eexists _, _.
Qed.

(** X11. Every call of either handler, on any arguments and any state,
    ends in one of three ways.  (1) It hands over to the submission
    collaborator, with a payload that differs from the old one at ["body"]
    only and with the result and the configuration untouched, and returns
    what the collaborator returns.  (2) It raises, with payload and result
    untouched.  (3) It returns a mapping synthesised locally, in which
    [error] is true and [errorBody] is set; the payload is untouched and
    so are the solved value and the task identifier of the result. *)
Theorem X11_three_outcomes (link file : option string) (b64 : option bytes)
    (kw : Kwargs) (st : State) :
  ((exists (st1 : State) (body : string),
       handler link file b64 kw st = BaseCaptcha__processing_response kw (log_event EvSubmit st1) /\
       post_payload st1 = <["body" := body]> (post_payload st) /\
       result st1 = result st /\ save_format st1 = save_format st /\
       img_clearing st1 = img_clearing st /\ img_path st1 = img_path st) \/
   (exists (e : exn) (st1 : State),
       handler link file b64 kw st = (Raise e, st1) /\
       post_payload st1 = post_payload st /\ result st1 = result st) \/
   (exists (d : pydict) (st1 : State),
       handler link file b64 kw st = (Return d, st1) /\
       d !! "error" = Some (PyBool true) /\
       (exists v : pyval, d !! "errorBody" = Some v /\ is_None v = false) /\
       error (result st1) = true /\
       captchaSolve (result st1) = captchaSolve (result st) /\
       taskId (result st1) = taskId (result st) /\
       post_payload st1 = post_payload st)) /\
  ((exists (st1 : State) (body : string),
       aio_handler link file b64 kw st = BaseCaptcha__aio_processing_response (log_event EvSubmit st1) /\
       post_payload st1 = <["body" := body]> (post_payload st) /\
       result st1 = result st /\ save_format st1 = save_format st /\
       img_clearing st1 = img_clearing st /\ img_path st1 = img_path st) \/
   (exists (e : exn) (st1 : State),
       aio_handler link file b64 kw st = (Raise e, st1) /\
       post_payload st1 = post_payload st /\ result st1 = result st) \/
   (exists (d : pydict) (st1 : State),
       aio_handler link file b64 kw st = (Return d, st1) /\
       d !! "error" = Some (PyBool true) /\
       (exists v : pyval, d !! "errorBody" = Some v /\ is_None v = false) /\
       error (result st1) = true /\
       captchaSolve (result st1) = captchaSolve (result st) /\
       taskId (result st1) = taskId (result st) /\
       post_payload st1 = post_payload st)).
Proof.
  split; [apply captcha_handler_outcomes | apply aio_captcha_handler_outcomes].
Qed.

Lemma not_persistent_reads_only (link file : option string)
    (b64 : option bytes) (kw : Kwargs) (st : State) :
  save_format st <> SaveFormatsEnm.CONST ->
  (exists st1 : State,
      fs st1 = fs st /\ uuid_drawn st1 = uuid_drawn st /\
      _image_name st1 = _image_name st /\
      Forall (fun ev => (exists p, ev = EvOpenRead p) \/
                        (exists u k, ev = EvFetch u k))
        (drop (List.length (trace st)) (trace st1)) /\
      (handler link file b64 kw st = BaseCaptcha__processing_response kw (log_event EvSubmit st1) \/
       exists o, handler link file b64 kw st = (o, st1))) /\
  (exists st1 : State,
      fs st1 = fs st /\ uuid_drawn st1 = uuid_drawn st /\
      _image_name st1 = _image_name st /\
      Forall (fun ev => (exists p, ev = EvOpenRead p) \/
                        (exists u k, ev = EvFetch u k))
        (drop (List.length (trace st)) (trace st1)) /\
      (aio_handler link file b64 kw st = BaseCaptcha__aio_processing_response (log_event EvSubmit st1) \/
       exists o, aio_handler link file b64 kw st = (o, st1))).
Proof.
  intros Hfmt. apply String.eqb_neq in Hfmt.
  destruct (decide (truthy_str file <> None \/ truthy_bytes b64 <> None))
    as [Hsrc|Hnone].
  { destruct (no_cache_without_url link file b64 kw st Hsrc)
      as (st1 & H1 & H2 & H3 & H4 & H5 & H6).
    assert (H4' : Forall (fun ev => (exists p, ev = EvOpenRead p) \/
                                    (exists u k, ev = EvFetch u k))
                    (drop (List.length (trace st)) (trace st1))).
    { eapply Forall_impl; [exact H4|]. intros ev [p ->]. left. by eexists. }
    split; exists st1; (split; [|split; [|split; [|split]]]); try done.
    - destruct H5 as [H5|[e H5]]; [by left | right; by eexists].
    - destruct H6 as [H6|[e H6]]; [by left | right; by eexists]. }
  assert (Hf : truthy_str file = None).
  { destruct (truthy_str file); [|done]. exfalso. apply Hnone. by left. }
  assert (Hb : truthy_bytes b64 = None).
  { destruct (truthy_bytes b64); [|done]. exfalso. apply Hnone. by right. }
  split.
  - destruct (truthy_str link) as [url|] eqn:Hl.
    2:{ rewrite (captcha_handler_none _ _ _ _ _ Hf Hb Hl). eexists.
        split; [|split; [|split; [|split]]].
        5: right; eexists; reflexivity.
        all: state_simpl; try reflexivity.
        rewrite drop_ge by lia. constructor. }
    destruct (BaseCaptcha_url_open url kw st) as [content|e] eqn:He.
    + rewrite (captcha_handler_fetch_ok _ _ _ _ _ _ _ Hf Hb Hl He). cbv zeta.
      rewrite Hfmt.
      eexists. split; [|split; [|split; [|split]]].
      5: left; reflexivity.
      all: state_simpl; try reflexivity.
      rewrite drop_app_length.
      constructor; [right; by eexists _, _ | constructor].
    + rewrite (captcha_handler_fetch_raise _ _ _ _ _ _ _ Hf Hb Hl He).
      destruct (isinstance_Exception e).
      all: eexists; split; [|split; [|split; [|split]]].
      all: try (right; eexists; reflexivity).
      all: state_simpl; try reflexivity.
      all: rewrite drop_app_length;
        (constructor; [right; by eexists _, _ | constructor]).
  - destruct (truthy_str link) as [url|] eqn:Hl.
    2:{ rewrite (aio_captcha_handler_none _ _ _ _ _ Hf Hb Hl). eexists.
        split; [|split; [|split; [|split]]].
        5: right; eexists; reflexivity.
        all: state_simpl; try reflexivity.
        rewrite drop_ge by lia. constructor. }
    destruct (BaseCaptcha_aio_url_read url kw st) as [content|e] eqn:He.
    + rewrite (aio_captcha_handler_fetch_ok _ _ _ _ _ _ _ Hf Hb Hl He).
      cbv zeta. rewrite Hfmt.
      eexists. split; [|split; [|split; [|split]]].
      5: left; reflexivity.
      all: state_simpl; try reflexivity.
      rewrite drop_app_length.
      constructor; [right; by eexists _, _ | constructor].
    + rewrite (aio_captcha_handler_fetch_raise _ _ _ _ _ _ _ Hf Hb Hl He).
      destruct (isinstance_Exception e).
      all: eexists; split; [|split; [|split; [|split]]].
      all: try (right; eexists; reflexivity).
      all: state_simpl; try reflexivity.
      all: rewrite drop_app_length;
        (constructor; [right; by eexists _, _ | constructor]).
Qed.

(** X1. An object constructed with a save format other than ['const'], in
    particular with the default arguments, never changes the disk: on any
    arguments and whatever the collaborators answer, each handler reaches
    its return, its raise or its call of the submission collaborator with
    the disk as it was, no UUID drawn and no image name recorded, having
    done nothing but a file read or a fetch; and teardown does nothing at
    all. *)
Theorem X1_not_persistent_never_writes (fmt : string) (clr : bool)
    (path : string) (link file : option string) (b64 : option bytes)
    (kw : Kwargs) (base : State) :
  fmt <> SaveFormatsEnm.CONST ->
  let st := (__init__ fmt clr path base).2 in
  __del__ st = (Return tt, st) /\
  (__init__defaults base).2 =
    (__init__ "temp" true "PythonRuCaptchaImages" base).2 /\
  (exists st1 : State,
      fs st1 = fs base /\ uuid_drawn st1 = uuid_drawn base /\
      _image_name st1 = _image_name base /\
      Forall (fun ev => (exists p, ev = EvOpenRead p) \/
                        (exists u k, ev = EvFetch u k))
        (drop (List.length (trace base)) (trace st1)) /\
      (handler link file b64 kw st = BaseCaptcha__processing_response kw (log_event EvSubmit st1) \/
       exists o, handler link file b64 kw st = (o, st1))) /\
  (exists st1 : State,
      fs st1 = fs base /\ uuid_drawn st1 = uuid_drawn base /\
      _image_name st1 = _image_name base /\
      Forall (fun ev => (exists p, ev = EvOpenRead p) \/
                        (exists u k, ev = EvFetch u k))
        (drop (List.length (trace base)) (trace st1)) /\
      (aio_handler link file b64 kw st = BaseCaptcha__aio_processing_response (log_event EvSubmit st1) \/
       exists o, aio_handler link file b64 kw st = (o, st1))).
Proof.
  intros Hfmt st. split; [|split; [reflexivity|]].
  - unfold __del__. subst st. unfold __init__, modify. state_simpl.
    apply String.eqb_neq in Hfmt. by rewrite Hfmt.
  - apply (not_persistent_reads_only link file b64 kw st). exact Hfmt.
Qed.

(** The external calls of [_image_const_saver], in order. *)
Lemma image_const_saver_trace (content : bytes) (dir : string) (st : State) :
  trace (_image_const_saver content dir st).2 = (trace st ++ [EvMkdir dir])%list \/
  trace (_image_const_saver content dir st).2 =
    (trace st ++ [EvMkdir dir; EvUuid4;
                  EvOpenWrite
                    (os_path_join dir
                       (image_name (uuid_stream st (uuid_drawn st))))
                    content])%list.
Proof.
  unfold _image_const_saver, Path_mkdir, uuid_uuid4, open_wb_write.
  run_monad. state_simpl.
  destruct (mkdir_parents dir [] (parts dir) (fs st)) as [[e|] f'];
    state_simpl; [by left|].
  right.
  destruct (String.eqb _ ""); state_simpl;
    [by rewrite <- !app_assoc|].
  destruct (parts (os_path_join _ _)) as [|seg rest]; state_simpl;
    [by rewrite <- !app_assoc|].
  destruct (is_dir f' _).
  - destruct (f' !! (seg :: rest)) as [[|c]|]; state_simpl;
      by rewrite <- !app_assoc.
  - destruct (f' !! removelast (seg :: rest)) as [[|c]|]; state_simpl;
      by rewrite <- !app_assoc.
Qed.

Lemma captcha_handler_protocol (link file : option string)
    (b64 : option bytes) (kw : Kwargs) (st : State) :
  exists (st1 : State) (evs : list event),
    trace st1 = (trace st ++ evs)%list /\
    (handler link file b64 kw st = BaseCaptcha__processing_response kw (log_event EvSubmit st1) \/
     exists o, handler link file b64 kw st = (o, st1)) /\
    (evs = [] \/
     (exists f, truthy_str file = Some f /\ evs = [EvOpenRead f]) \/
     (exists url,
         truthy_str file = None /\ truthy_bytes b64 = None /\
         truthy_str link = Some url /\
         (evs = [EvFetch url kw] \/
          evs = [EvFetch url kw; EvMkdir (img_path st)] \/
          exists content,
            BaseCaptcha_url_open url kw st = Return content /\
            let name := image_name (uuid_stream st (uuid_drawn st)) in
            parts (os_path_join (img_path st) name) =
              (parts (img_path st) ++ [name])%list /\
            evs = [EvFetch url kw; EvMkdir (img_path st); EvUuid4;
                   EvOpenWrite (os_path_join (img_path st) name) content]))).
Proof.
  destruct (truthy_str file) as [f|] eqn:Hf.
  { rewrite (captcha_handler_file _ _ _ _ _ _ Hf).
    pose proof (local_image_captcha_state f st) as Hst.
    destruct (_local_image_captcha f st) as [[c|e] st1];
      cbn [snd] in Hst; subst st1.
    - eexists _, [EvOpenRead f]. split; [|split; [left; reflexivity|]].
      + by state_simpl.
      + right. left. by eexists.
    - eexists _, [EvOpenRead f]. split; [|split; [right; by eexists | ]].
      + by state_simpl.
      + right. left. by eexists. }
  destruct (truthy_bytes b64) as [b|] eqn:Hb.
  { rewrite (captcha_handler_bytes _ _ _ _ _ _ Hf Hb).
    eexists _, []. split; [|split; [left; reflexivity | by left]].
    state_simpl. by rewrite app_nil_r. }
  destruct (truthy_str link) as [url|] eqn:Hl.
  2:{ rewrite (captcha_handler_none _ _ _ _ _ Hf Hb Hl).
      eexists _, []. split; [|split; [right; by eexists | by left]].
      state_simpl. by rewrite app_nil_r. }
  destruct (BaseCaptcha_url_open url kw st) as [content|e] eqn:He.
  - rewrite (captcha_handler_fetch_ok _ _ _ _ _ _ _ Hf Hb Hl He). cbv zeta.
    destruct (String.eqb (save_format st) SaveFormatsEnm.CONST).
    + pose proof (image_const_saver_trace content (img_path st)
                    (log_event (EvFetch url kw) st)) as Ht.
      cbn [trace log_event uuid_stream uuid_drawn] in Ht.
      destruct (_image_const_saver content (img_path st) _)
        as [[[]|e] st2]; cbn [snd] in Ht.
      all: destruct Ht as [Ht|Ht];
        rewrite <- app_assoc in Ht; cbn [app] in Ht.
      * eexists _, _. split; [|split]. 2: left; reflexivity.
        1: state_simpl; exact Ht.
        right. right. exists url. repeat split. right. by left.
      * eexists _, _. split; [|split]. 2: left; reflexivity.
        1: state_simpl; exact Ht.
        right. right. exists url. repeat split. right. right.
        exists content. split; [done|]. split; [apply parts_join_image|done].
      * eexists _, _. split; [exact Ht|]. split; [right; by eexists|].
        right. right. exists url. repeat split. right. by left.
      * eexists _, _. split; [exact Ht|]. split; [right; by eexists|].
        right. right. exists url. repeat split. right. right.
        exists content. split; [done|]. split; [apply parts_join_image|done].
    + eexists _, [EvFetch url kw]. split; [|split; [left; reflexivity|]].
      * by state_simpl.
      * right. right. exists url. repeat split. by left.
  - rewrite (captcha_handler_fetch_raise _ _ _ _ _ _ _ Hf Hb Hl He).
    destruct (isinstance_Exception e).
    all: eexists _, [EvFetch url kw]; (split; [|split; [right; by eexists | ]]);
      [ by state_simpl | right; right; exists url; repeat split; by left ].
Qed.

Lemma aio_captcha_handler_protocol (link file : option string)
    (b64 : option bytes) (kw : Kwargs) (st : State) :
  exists (st1 : State) (evs : list event),
    trace st1 = (trace st ++ evs)%list /\
    (aio_handler link file b64 kw st = BaseCaptcha__aio_processing_response (log_event EvSubmit st1) \/
     exists o, aio_handler link file b64 kw st = (o, st1)) /\
    (evs = [] \/
     (exists f, truthy_str file = Some f /\ evs = [EvOpenRead f]) \/
     (exists url,
         truthy_str file = None /\ truthy_bytes b64 = None /\
         truthy_str link = Some url /\
         (evs = [EvFetch url kw] \/
          evs = [EvFetch url kw; EvMkdir (img_path st)] \/
          exists content,
            BaseCaptcha_aio_url_read url kw st = Return content /\
            let name := image_name (uuid_stream st (uuid_drawn st)) in
            parts (os_path_join (img_path st) name) =
              (parts (img_path st) ++ [name])%list /\
            evs = [EvFetch url kw; EvMkdir (img_path st); EvUuid4;
                   EvOpenWrite (os_path_join (img_path st) name) content]))).
Proof.
  destruct (truthy_str file) as [f|] eqn:Hf.
  { rewrite (aio_captcha_handler_file _ _ _ _ _ _ Hf).
    pose proof (local_image_captcha_state f st) as Hst.
    destruct (_local_image_captcha f st) as [[c|e] st1];
      cbn [snd] in Hst; subst st1.
    - eexists _, [EvOpenRead f]. split; [|split; [left; reflexivity|]].
      + by state_simpl.
      + right. left. by eexists.
    - eexists _, [EvOpenRead f]. split; [|split; [right; by eexists | ]].
      + by state_simpl.
      + right. left. by eexists. }
  destruct (truthy_bytes b64) as [b|] eqn:Hb.
  { rewrite (aio_captcha_handler_bytes _ _ _ _ _ _ Hf Hb).
    eexists _, []. split; [|split; [left; reflexivity | by left]].
    state_simpl. by rewrite app_nil_r. }
  destruct (truthy_str link) as [url|] eqn:Hl.
  2:{ rewrite (aio_captcha_handler_none _ _ _ _ _ Hf Hb Hl).
      eexists _, []. split; [|split; [right; by eexists | by left]].
      state_simpl. by rewrite app_nil_r. }
  destruct (BaseCaptcha_aio_url_read url kw st) as [content|e] eqn:He.
  - rewrite (aio_captcha_handler_fetch_ok _ _ _ _ _ _ _ Hf Hb Hl He). cbv zeta.
    destruct (String.eqb (save_format st) SaveFormatsEnm.CONST).
    + pose proof (image_const_saver_trace content (img_path st)
                    (log_event (EvFetch url kw) st)) as Ht.
      cbn [trace log_event uuid_stream uuid_drawn] in Ht.
      destruct (_image_const_saver content (img_path st) _)
        as [[[]|e] st2]; cbn [snd] in Ht.
      all: destruct Ht as [Ht|Ht];
        rewrite <- app_assoc in Ht; cbn [app] in Ht.
      * eexists _, _. split; [|split]. 2: left; reflexivity.
        1: state_simpl; exact Ht.
        right. right. exists url. repeat split. right. by left.
      * eexists _, _. split; [|split]. 2: left; reflexivity.
        1: state_simpl; exact Ht.
        right. right. exists url. repeat split. right. right.
        exists content. split; [done|]. split; [apply parts_join_image|done].
      * eexists _, _. split; [exact Ht|]. split; [right; by eexists|].
        right. right. exists url. repeat split. right. by left.
      * eexists _, _. split; [exact Ht|]. split; [right; by eexists|].
        right. right. exists url. repeat split. right. right.
        exists content. split; [done|]. split; [apply parts_join_image|done].
    + eexists _, [EvFetch url kw]. split; [|split; [left; reflexivity|]].
      * by state_simpl.
      * right. right. exists url. repeat split. by left.
  - rewrite (aio_captcha_handler_fetch_raise _ _ _ _ _ _ _ Hf Hb Hl He).
    destruct (isinstance_Exception e).
    all: eexists _, [EvFetch url kw]; (split; [|split; [right; by eexists | ]]);
      [ by state_simpl | right; right; exists url; repeat split; by left ].
Qed.

(** X15. The external calls of one handler call, in order, up to its
    return, its raise or its call of the submission collaborator, are one
    of: none at all; one file read, of the file path; one fetch of the
    URL; the fetch followed by directory creation; or the fetch followed
    by directory creation, one UUID and one file write.  The write puts
    the bytes the fetch returned into the file named [im-<uuid>.png] after
    the UUID drawn, and the components of its path are those of the
    storage path followed by that name: the file lies directly in the
    storage directory.  In particular a call never reads a file and
    fetches, and it fetches only when file path and raw bytes are both
    absent. *)
Theorem X15_order_of_external_calls (link file : option string)
    (b64 : option bytes) (kw : Kwargs) (st : State) :
  (exists (st1 : State) (evs : list event),
    trace st1 = (trace st ++ evs)%list /\
    (handler link file b64 kw st = BaseCaptcha__processing_response kw (log_event EvSubmit st1) \/
     exists o, handler link file b64 kw st = (o, st1)) /\
    (evs = [] \/
     (exists f, truthy_str file = Some f /\ evs = [EvOpenRead f]) \/
     (exists url,
         truthy_str file = None /\ truthy_bytes b64 = None /\
         truthy_str link = Some url /\
         (evs = [EvFetch url kw] \/
          evs = [EvFetch url kw; EvMkdir (img_path st)] \/
          exists content,
            BaseCaptcha_url_open url kw st = Return content /\
            let name := image_name (uuid_stream st (uuid_drawn st)) in
            parts (os_path_join (img_path st) name) =
              (parts (img_path st) ++ [name])%list /\
            evs = [EvFetch url kw; EvMkdir (img_path st); EvUuid4;
                   EvOpenWrite (os_path_join (img_path st) name) content])))) /\
  (exists (st1 : State) (evs : list event),
    trace st1 = (trace st ++ evs)%list /\
    (aio_handler link file b64 kw st = BaseCaptcha__aio_processing_response (log_event EvSubmit st1) \/
     exists o, aio_handler link file b64 kw st = (o, st1)) /\
    (evs = [] \/
     (exists f, truthy_str file = Some f /\ evs = [EvOpenRead f]) \/
     (exists url,
         truthy_str file = None /\ truthy_bytes b64 = None /\
         truthy_str link = Some url /\
         (evs = [EvFetch url kw] \/
          evs = [EvFetch url kw; EvMkdir (img_path st)] \/
          exists content,
            BaseCaptcha_aio_url_read url kw st = Return content /\
            let name := image_name (uuid_stream st (uuid_drawn st)) in
            parts (os_path_join (img_path st) name) =
              (parts (img_path st) ++ [name])%list /\
            evs = [EvFetch url kw; EvMkdir (img_path st); EvUuid4;
                   EvOpenWrite (os_path_join (img_path st) name) content])))).
Proof.
  split; [apply captcha_handler_protocol | apply aio_captcha_handler_protocol].
Qed.

(** X14. With collaborators that answer the blocking and the
    non-blocking call alike, in what they return and in the state they
    leave, the two handlers agree on everything: the returned mapping or
    raised exception and the whole state after the call (disk, payload,
    result, UUIDs drawn, trace). *)
Theorem X14_same_side_effects :
  (forall url kw st,
      BaseCaptcha_url_open url kw st = BaseCaptcha_aio_url_read url kw st) ->
  (forall kw st,
      BaseCaptcha__processing_response kw st =
      BaseCaptcha__aio_processing_response st) ->
  forall (link file : option string) (b64 : option bytes) (kw : Kwargs)
         (st : State),
    handler link file b64 kw st = aio_handler link file b64 kw st.
Proof.
  intros Hfetch Hsubmit link file b64 kw st.
  destruct (truthy_str file) as [f|] eqn:Hf.
  { rewrite (captcha_handler_file _ _ _ _ _ _ Hf),
      (aio_captcha_handler_file _ _ _ _ _ _ Hf).
    destruct (_local_image_captcha f st) as [[content|e] st1];
      [apply Hsubmit | reflexivity]. }
  destruct (truthy_bytes b64) as [b|] eqn:Hb.
  { rewrite (captcha_handler_bytes _ _ _ _ _ _ Hf Hb),
      (aio_captcha_handler_bytes _ _ _ _ _ _ Hf Hb).
    apply Hsubmit. }
  destruct (truthy_str link) as [url|] eqn:Hl.
  2:{ by rewrite (captcha_handler_none _ _ _ _ _ Hf Hb Hl),
        (aio_captcha_handler_none _ _ _ _ _ Hf Hb Hl). }
  destruct (BaseCaptcha_url_open url kw st) as [content|e] eqn:He.
  - rewrite (captcha_handler_fetch_ok _ _ _ _ _ _ _ Hf Hb Hl He).
    rewrite Hfetch in He.
    rewrite (aio_captcha_handler_fetch_ok _ _ _ _ _ _ _ Hf Hb Hl He).
    cbv zeta.
    destruct (String.eqb (save_format st) SaveFormatsEnm.CONST);
      [|apply Hsubmit].
    destruct (_image_const_saver content (img_path st) _) as [[[]|e] st2];
      [apply Hsubmit | reflexivity].
  - rewrite (captcha_handler_fetch_raise _ _ _ _ _ _ _ Hf Hb Hl He).
    rewrite Hfetch in He.
    by rewrite (aio_captcha_handler_fetch_raise _ _ _ _ _ _ _ Hf Hb Hl He).
Qed.

End Properties.

(** * The claims on concrete objects *)

Import Examples.

(** The worked examples of the module's documentation, run on the model. *)

Example file_path_example :
  captcha_handler fetch_ok submit None (Some image_file) None options obj_temp =
  (Return (dict false solved),
   set_result solved
     (log_event EvSubmit
        (set_post_payload (<["body" := "iVBORw=="]> base_payload)
           (log_event (EvOpenRead image_file) obj_temp)))).
Proof. vm_compute. reflexivity. Qed.

Example missing_file_example :
  captcha_handler fetch_ok submit None (Some "nowhere.png") None options
    obj_temp =
  (Raise (FileNotFoundError "nowhere.png"),
   log_event (EvOpenRead "nowhere.png") obj_temp).
Proof. vm_compute. reflexivity. Qed.

Example url_temporary_example :
  let st' := (aio_captcha_handler fetch_ok aio_submit (Some link) None None
                options obj_temp).2 in
  fs st' !! ["PythonRuCaptchaImages"] = None /\ _image_name st' = None /\
  uuid_drawn st' = 0%nat /\
  post_payload st' !! "body" = Some "iVBORw==" /\
  trace st' = [EvFetch link options; EvSubmit].
Proof. cbv zeta. repeat split; vm_compute; reflexivity. Qed.

Example url_persistent_existing_directory_example :
  let st' := (captcha_handler fetch_ok submit (Some link) None None options
                obj_cached).2 in
  fs st' !! ["PythonRuCaptchaImages"; "old.png"] = Some (File png) /\
  fs st' !! ["PythonRuCaptchaImages";
             "im-deadbeef-0001-4002-8003-000000000000.png"] =
    Some (File png).
Proof. cbv zeta. split; vm_compute; reflexivity. Qed.

Example storage_path_is_a_file_example :
  captcha_handler fetch_ok submit (Some link) None None options
    (obj SaveFormatsEnm.CONST true
       (<[ ["PythonRuCaptchaImages"] := File png ]> disk)) =
  (Raise (FileExistsError "PythonRuCaptchaImages"),
   log_event (EvMkdir "PythonRuCaptchaImages")
     (log_event (EvFetch link options)
        (obj SaveFormatsEnm.CONST true
           (<[ ["PythonRuCaptchaImages"] := File png ]> disk)))).
Proof. vm_compute. reflexivity. Qed.

Example fetch_then_teardown_example :
  let st' := (captcha_handler fetch_ok submit (Some link) None None options
                obj_const).2 in
  (__del__ st').1 = Return tt /\
  fs (__del__ st').2 !! ["PythonRuCaptchaImages"] = None /\
  fs (__del__ st').2 !! ["PythonRuCaptchaImages";
                         "im-deadbeef-0001-4002-8003-000000000000.png"] = None /\
  fs (__del__ st').2 !! ["examples"; "088636.png"] = Some (File png).
Proof. cbv zeta. repeat split; vm_compute; reflexivity. Qed.

Example interrupt_is_not_caught_example :
  (captcha_handler (fun _ _ _ => Raise KeyboardInterrupt) submit (Some link)
     None None options obj_const).1 = Raise KeyboardInterrupt.
Proof. reflexivity. Qed.

Lemma C1_blocking_nonblocking_parity_witness :
  (forall url kw st, fetch_ok url kw st = fetch_ok url kw st) /\
  (forall kw st, (submit kw st).1 = (aio_submit st).1) /\
  (captcha_handler fetch_ok submit (Some link) None None options obj_const).1 =
  (aio_captcha_handler fetch_ok aio_submit (Some link) None None options
     obj_const).1.
Proof.
  split; [reflexivity|]. split; [reflexivity|].
  apply (C1_blocking_nonblocking_parity fetch_ok fetch_ok submit aio_submit);
    reflexivity.
Defined.

Lemma C2_input_precedence_witness :
  image_file <> "" /\ png <> [] /\
  truthy_str None = None /\ truthy_str (Some "") = None /\
  captcha_handler fetch_ok submit (Some link) (Some image_file) (Some png)
    options obj_temp =
  captcha_handler fetch_ok submit None (Some image_file) None options obj_temp /\
  captcha_handler fetch_ok submit (Some link) None (Some png) options obj_temp =
  captcha_handler fetch_ok submit None (Some "") (Some png) options obj_temp.
Proof.
  assert (H1 : image_file <> "") by discriminate.
  assert (H2 : png <> []) by discriminate.
  destruct (C2_input_precedence fetch_ok fetch_ok submit aio_submit
              (Some link) None None (Some "") (Some png) None image_file png
              options obj_temp H1 H2 eq_refl eq_refl) as [(Ha & _) (Hb & _)].
  repeat split; assumption.
Defined.

Lemma C3_no_input_witness :
  truthy_str (Some "") = None /\ truthy_bytes (Some []) = None /\
  truthy_str None = None /\
  exists (d : pydict) (st' : State),
    captcha_handler fetch_ok submit None (Some "") (Some []) options obj_const =
      (Return d, st') /\
    d !! "errorBody" =
      Some (PyStr "You did not send any file, local link or URL.") /\
    trace st' = [] /\ fs st' = disk.
Proof.
  repeat split.
  destruct (C3_no_input fetch_ok fetch_ok submit aio_submit None (Some "")
              (Some []) options obj_const eq_refl eq_refl eq_refl)
    as (d & st' & H1 & _ & _ & H2 & H3 & H4 & _).
  exists d, st'. repeat split; assumption.
Defined.

Lemma C4_fetch_failure_absorbed_witness :
  truthy_str None = None /\ truthy_bytes None = None /\
  truthy_str (Some link) = Some link /\
  isinstance_Exception connection_error = true /\
  exists (d : pydict) (st' : State),
    captcha_handler fetch_fail submit (Some link) None None options obj_const =
      (Return d, st') /\
    d !! "error" = Some (PyBool true) /\
    d !! "errorBody" = Some (PyExc connection_error) /\
    fs st' = disk /\ trace st' = [EvFetch link options].
Proof.
  repeat split.
  destruct (C4_fetch_failure_absorbed fetch_fail fetch_fail submit aio_submit
              (Some link) None None options link connection_error obj_const
              eq_refl eq_refl eq_refl eq_refl)
    as (d & st' & H1 & _ & H2 & H3 & H4 & _ & H5).
  exists d, st'. repeat split; try assumption. by apply H1.
Defined.

Lemma C5_payload_body_base64_witness :
  truthy_str None = None /\ png <> [] /\
  exists st' : State,
    captcha_handler fetch_ok submit None None (Some png) options obj_temp =
      submit options st' /\
    post_payload st' !! "body" = Some "iVBORw==" /\
    Base64.b64decode "iVBORw==" = Some png.
Proof.
  assert (H : png <> []) by discriminate.
  repeat split; [exact H|].
  destruct (C5_payload_body_base64 fetch_ok fetch_ok submit aio_submit None
              None png options obj_temp eq_refl H)
    as (st' & H1 & _ & _ & H2 & _).
  exists st'. repeat split; assumption.
Defined.

(** C6 as the claim words it fails: on a fresh object the zero-input
    mapping binds the fields it never set to [None], while the mapping of
    a failed fetch, another error synthesised locally, leaves them out. *)
Lemma C6_zero_input_keeps_nulls :
  (exists d : pydict,
      (captcha_handler fetch_ok submit None None None options obj_temp).1 =
        Return d /\
      d !! "taskId" = Some PyNone /\ d !! "captchaSolve" = Some PyNone) /\
  (exists d : pydict,
      (captcha_handler fetch_fail submit (Some link) None None options
         obj_temp).1 = Return d /\
      d !! "taskId" = None /\ d !! "captchaSolve" = None /\
      d !! "errorBody" = Some (PyExc connection_error)).
Proof. split; eexists; repeat split; reflexivity. Qed.

Lemma C6_exclude_none_on_fetch_failure_witness :
  truthy_str None = None /\ truthy_bytes None = None /\
  (exists d : pydict,
      (captcha_handler fetch_ok submit None None None options obj_temp).1 =
        Return d /\
      d !! "taskId" = Some PyNone) /\
  (exists d : pydict,
      (captcha_handler fetch_fail submit (Some link) None None options
         obj_temp).1 = Return d /\
      (forall k : string, d !! k <> Some PyNone) /\
      d !! "taskId" = None).
Proof.
  repeat split.
  - destruct (C6_exclude_none_on_fetch_failure fetch_ok fetch_ok submit
                aio_submit None None None options obj_temp eq_refl eq_refl)
      as [H _].
    destruct (H eq_refl) as (d & H1 & _ & _ & H2 & _).
    exists d. split; assumption.
  - destruct (C6_exclude_none_on_fetch_failure fetch_fail fetch_fail submit
                aio_submit (Some link) None None options obj_temp eq_refl
                eq_refl) as [_ H].
    destruct (H link connection_error eq_refl eq_refl)
      as (d & H1 & _ & H2 & _ & H3 & _).
    exists d. repeat split; [by apply H1 | exact H2 | by apply H3].
Defined.



Lemma C8_teardown_witness :
  has_dotdot (img_path obj_cached) = false /\
  resolve (fs obj_cached) (img_path obj_cached) =
    Found ["PythonRuCaptchaImages"] LastNorm /\
  (__del__ obj_cached).1 = Return tt /\
  fs (__del__ obj_cached).2 !! ["PythonRuCaptchaImages"] = None /\
  fs (__del__ obj_cached).2 !! ["PythonRuCaptchaImages"; "old.png"] = None /\
  fs (__del__ obj_cached).2 !! ["examples"; "088636.png"] = Some (File png) /\
  __del__ (obj SaveFormatsEnm.TEMP true disk_cached) =
    (Return tt, obj SaveFormatsEnm.TEMP true disk_cached) /\
  __del__ (obj SaveFormatsEnm.CONST false disk_cached) =
    (Return tt, obj SaveFormatsEnm.CONST false disk_cached).
Proof.
  destruct (C8_teardown obj_cached) as [Hon _].
  destruct (Hon eq_refl eq_refl) as [_ Hrm].
  destruct (Hrm ["PythonRuCaptchaImages"] eq_refl eq_refl)
    as (Hret & Hgone & Hkept).
  split; [reflexivity|]. split; [reflexivity|].
  split; [exact Hret|].
  split; [apply Hgone; by exists []|].
  split; [apply Hgone; by exists ["old.png"]|].
  split.
  { rewrite Hkept; [reflexivity|]. intros [rest Hk]. vm_compute in Hk.
    discriminate. }
  split.
  - apply (C8_teardown (obj SaveFormatsEnm.TEMP true disk_cached)).
    left. discriminate.
  - apply (C8_teardown (obj SaveFormatsEnm.CONST false disk_cached)).
    by right.
Defined.

Lemma C9_teardown_missing_directory_witness :
  save_format obj_const = SaveFormatsEnm.CONST /\
  img_clearing obj_const = true /\
  os_path_exists (fs obj_const) (img_path obj_const) = false /\
  __del__ obj_const =
    (Raise (FileNotFoundError "PythonRuCaptchaImages"),
     log_event (EvRmtree "PythonRuCaptchaImages") obj_const) /\
  (__del__ (captcha_handler fetch_ok submit None None None options
              obj_const).2).1 =
    Raise (FileNotFoundError "PythonRuCaptchaImages") /\
  os_path_exists disk "examples/088636.png/x" = false /\
  __del__ (obj_at "examples/088636.png/x" disk) =
    (Raise (NotADirectoryError "examples/088636.png/x"),
     log_event (EvRmtree "examples/088636.png/x")
       (obj_at "examples/088636.png/x" disk)).
Proof.
  destruct (C9_teardown_missing_directory fetch_ok fetch_ok submit aio_submit
              obj_const eq_refl eq_refl eq_refl) as [H1 H2].
  destruct (C9_teardown_missing_directory fetch_ok fetch_ok submit aio_submit
              (obj_at "examples/088636.png/x" disk) eq_refl eq_refl eq_refl)
    as [H3 _].
  split; [reflexivity|]. split; [reflexivity|]. split; [reflexivity|].
  split; [exact H1|].
  split; [exact (proj1 (H2 None None None options eq_refl eq_refl eq_refl))|].
  split; [reflexivity | exact H3].
Defined.

Lemma C10_payload_untouched_on_local_errors_witness :
  truthy_str None = None /\ truthy_bytes None = None /\
  post_payload
    (captcha_handler fetch_ok submit None None None options obj_const).2 =
    base_payload /\
  post_payload
    (captcha_handler fetch_fail submit (Some link) None None options
       obj_const).2 = base_payload /\
  post_payload
    (aio_captcha_handler fetch_fail aio_submit (Some link) None None options
       obj_const).2 !! "body" = None.
Proof.
  pose proof (C10_payload_untouched_on_local_errors fetch_ok fetch_ok submit
                aio_submit None None None options obj_const eq_refl eq_refl)
    as [Hzero _].
  pose proof (C10_payload_untouched_on_local_errors fetch_fail fetch_fail
                submit aio_submit (Some link) None None options obj_const
                eq_refl eq_refl) as [_ Hfail].
  destruct (Hfail link connection_error eq_refl) as [Hsync Haio].
  split; [reflexivity|]. split; [reflexivity|].
  split; [exact (proj1 (Hzero eq_refl))|].
  split; [exact (Hsync eq_refl)|].
  rewrite (Haio eq_refl). reflexivity.
Defined.

(** * The further properties on concrete objects *)

Lemma X1_not_persistent_never_writes_witness :
  "temp" <> SaveFormatsEnm.CONST /\
  let st := (__init__defaults obj_cached).2 in
  __del__ st = (Return tt, st) /\
  exists st1 : State,
    fs st1 = disk_cached /\ uuid_drawn st1 = 0%nat /\
    (captcha_handler fetch_ok submit (Some link) None None options st =
       submit options (log_event EvSubmit st1) \/
     exists o,
       captcha_handler fetch_ok submit (Some link) None None options st =
         (o, st1)).
Proof.
  assert (H : "temp" <> SaveFormatsEnm.CONST) by discriminate.
  split; [exact H|].
  destruct (X1_not_persistent_never_writes fetch_ok fetch_ok submit aio_submit
              "temp" true "PythonRuCaptchaImages" (Some link) None None
              options obj_cached H) as (Hdel & _ & (st1 & H1 & H2 & _ & _ & H3) & _).
  split; [exact Hdel|]. exists st1. repeat split; assumption.
Defined.

Lemma X2_file_path_encodes_file_content_witness :
  resolve (fs obj_temp) image_file =
    FoundFile ["examples"; "088636.png"] png /\
  exists st' : State,
    captcha_handler fetch_ok submit (Some link) (Some image_file) (Some [x00])
      options obj_temp = submit options st' /\
    post_payload st' !! "body" = Some "iVBORw==" /\
    trace st' = [EvOpenRead image_file; EvSubmit].
Proof.
  assert (H : resolve (fs obj_temp) image_file =
              FoundFile ["examples"; "088636.png"] png) by reflexivity.
  split; [exact H|].
  destruct (X2_file_path_encodes_file_content fetch_ok fetch_ok submit
              aio_submit (Some link) (Some [x00]) options image_file
              ["examples"; "088636.png"] png obj_temp H)
    as (st' & Ha & _ & Hb & _ & _ & _ & Hc).
  exists st'. split; [exact Ha|]. split; [|exact Hc].
  rewrite Hb. reflexivity.
Defined.

Lemma X3_unreadable_file_propagates_witness :
  "nowhere.png" <> "" /\
  (forall (k : list string) (c : bytes),
      resolve (fs obj_temp) "nowhere.png" <> FoundFile k c) /\
  captcha_handler fetch_ok submit (Some link) (Some "nowhere.png") (Some png)
    options obj_temp =
  (Raise (FileNotFoundError "nowhere.png"),
   log_event (EvOpenRead "nowhere.png") obj_temp) /\
  captcha_handler fetch_ok submit None (Some "examples") None options obj_temp =
  (Raise (IsADirectoryError "examples"),
   log_event (EvOpenRead "examples") obj_temp) /\
  captcha_handler fetch_ok submit None (Some "examples/088636.png/") None
    options obj_temp =
  (Raise (NotADirectoryError "examples/088636.png/"),
   log_event (EvOpenRead "examples/088636.png/") obj_temp) /\
  captcha_handler fetch_ok submit None (Some "examples/088636.png/x") None
    options obj_temp =
  (Raise (NotADirectoryError "examples/088636.png/x"),
   log_event (EvOpenRead "examples/088636.png/x") obj_temp).
Proof.
  assert (Hno : forall f : string,
             match resolve (fs obj_temp) f with
             | FoundFile _ _ => False
             | _ => True
             end ->
             forall (k : list string) (c : bytes),
               resolve (fs obj_temp) f <> FoundFile k c).
  { intros f Hf k c E. by rewrite E in Hf. }
  assert (H1 : "nowhere.png" <> "") by discriminate.
  assert (H2 := Hno "nowhere.png" I).
  split; [exact H1|]. split; [exact H2|]. split; [|split; [|split]].
  - exact (proj1 (X3_unreadable_file_propagates fetch_ok fetch_ok submit
                    aio_submit (Some link) (Some png) options "nowhere.png"
                    obj_temp H1 H2)).
  - refine (proj1 (X3_unreadable_file_propagates fetch_ok fetch_ok submit
                     aio_submit None None options "examples" obj_temp _
                     (Hno "examples" I))).
    discriminate.
  - refine (proj1 (X3_unreadable_file_propagates fetch_ok fetch_ok submit
                     aio_submit None None options "examples/088636.png/"
                     obj_temp _ (Hno "examples/088636.png/" I))).
    discriminate.
  - refine (proj1 (X3_unreadable_file_propagates fetch_ok fetch_ok submit
                     aio_submit None None options "examples/088636.png/x"
                     obj_temp _ (Hno "examples/088636.png/x" I))).
    discriminate.
Defined.

Lemma X4_non_exception_propagates_witness :
  truthy_str None = None /\ truthy_bytes None = None /\
  truthy_str (Some link) = Some link /\
  isinstance_Exception CancelledError = false /\
  aio_captcha_handler (fun _ _ _ => Raise CancelledError) aio_submit
    (Some link) None None options obj_const =
  (Raise CancelledError, log_event (EvFetch link options) obj_const).
Proof.
  split; [reflexivity|]. split; [reflexivity|]. split; [reflexivity|].
  split; [reflexivity|].
  exact (proj1 (proj2 (X4_non_exception_propagates
                         (fun _ _ _ => Raise CancelledError)
                         (fun _ _ _ => Raise CancelledError) submit aio_submit
                         (Some link) None None options link CancelledError
                         obj_const eq_refl eq_refl eq_refl eq_refl)) eq_refl).
Defined.

Lemma X5_blocked_storage_path_propagates_witness :
  save_format obj_blocked = SaveFormatsEnm.CONST /\
  (exists (k : list string) (c : bytes),
      k <> [] /\ k `prefix_of` parts (img_path obj_blocked) /\
      fs obj_blocked !! k = Some (File c)) /\
  exists (e : exn) (st' : State),
    captcha_handler fetch_ok submit (Some link) None None options obj_blocked =
      (Raise e, st') /\
    post_payload st' = base_payload /\ uuid_drawn st' = 0%nat /\
    trace st' = [EvFetch link options; EvMkdir "PythonRuCaptchaImages"].
Proof.
  assert (H : exists (k : list string) (c : bytes),
             k <> [] /\ k `prefix_of` parts (img_path obj_blocked) /\
             fs obj_blocked !! k = Some (File c)).
  { exists ["PythonRuCaptchaImages"], png.
    split; [discriminate|]. split; [by exists [] | reflexivity]. }
  split; [reflexivity|]. split; [exact H|].
  destruct (X5_blocked_storage_path_propagates fetch_ok fetch_ok submit
              aio_submit (Some link) None None options link png obj_blocked
              eq_refl eq_refl eq_refl eq_refl H)
    as (e & st' & _ & H1 & _ & H2 & _ & H3 & _ & _ & H4).
  exists e, st'. split; [exact (H1 eq_refl)|].
  split; [exact H2|]. split; [exact H3 | exact H4].
Defined.


Lemma X6_teardown_succeeds_iff_witness :
  has_dotdot (img_path obj_cached) = false /\
  (__del__ obj_cached).1 = Return tt /\
  has_dotdot "PythonRuCaptchaImages/." = false /\
  (__del__ (obj_at "PythonRuCaptchaImages/." disk_cached)).1 <> Return tt /\
  (__del__ (obj_at "examples/088636.png/x" disk)).1 <> Return tt.
Proof.
  split; [reflexivity|]. split; [|split; [reflexivity|split]].
  - apply (X6_teardown_succeeds_iff obj_cached eq_refl).
    right. right. by exists ["PythonRuCaptchaImages"].
  - intros Hret.
    apply (X6_teardown_succeeds_iff
             (obj_at "PythonRuCaptchaImages/." disk_cached) eq_refl)
      in Hret as [Hfmt|[Hclr|[dir Hres]]].
    + by apply Hfmt.
    + discriminate Hclr.
    + vm_compute in Hres. discriminate Hres.
  - intros Hret.
    apply (X6_teardown_succeeds_iff
             (obj_at "examples/088636.png/x" disk) eq_refl)
      in Hret as [Hfmt|[Hclr|[dir Hres]]].
    + by apply Hfmt.
    + discriminate Hclr.
    + vm_compute in Hres. discriminate Hres.
Defined.

Lemma X8_saver_sets_one_file_witness :
  (forall pre : list string,
      pre <> [] -> pre `prefix_of` parts "PythonRuCaptchaImages/" ->
      fs obj_cached !! pre = Some Dir) /\
  (exists st' : State,
      _image_const_saver png "PythonRuCaptchaImages/" obj_cached =
        (Return tt, st') /\
      fs st' =
        <[ ["PythonRuCaptchaImages";
            "im-deadbeef-0001-4002-8003-000000000000.png"] := File png ]>
          disk_cached /\
      size (fs st') = S (size disk_cached)) /\
  let s1 := (_image_const_saver png "PythonRuCaptchaImages/" obj_repeated).2 in
  exists st2 : State,
    _image_const_saver [x00] "PythonRuCaptchaImages/" s1 = (Return tt, st2) /\
    fs st2 !! ["PythonRuCaptchaImages";
               "im-deadbeef-0001-4002-8003-000000000000.png"] =
      Some (File [x00]) /\
    size (fs st2) = size (fs s1).
Proof.
  assert (Hdirs : forall st : State,
             fs st !! ["PythonRuCaptchaImages"] = Some Dir ->
             forall pre : list string,
               pre <> [] -> pre `prefix_of` parts "PythonRuCaptchaImages/" ->
               fs st !! pre = Some Dir).
  { intros st Hdir pre Hne [rest Hk].
    change (parts "PythonRuCaptchaImages/") with ["PythonRuCaptchaImages"]
      in Hk.
    destruct pre as [|seg [|seg' pre]].
    - done.
    - cbn [app] in Hk. injection Hk as <- _. exact Hdir.
    - cbn [app] in Hk. discriminate Hk. }
  split; [exact (Hdirs obj_cached eq_refl)|]. split.
  - destruct (X8_saver_sets_one_file png "PythonRuCaptchaImages/" obj_cached
                (Hdirs obj_cached eq_refl)) as (st' & H1 & H2 & _ & H3 & _).
    { intros E; vm_compute in E; discriminate E. }
    exists st'. split; [exact H1|]. split; [exact H2 | exact H3].
  - intros s1.
    destruct (X8_saver_sets_one_file [x00] "PythonRuCaptchaImages/" s1
                (Hdirs s1 eq_refl)) as (st2 & H1 & H2 & _ & H3 & _).
    { intros E; vm_compute in E; discriminate E. }
    exists st2. split; [exact H1|]. split; [|exact H3].
    rewrite H2. apply lookup_insert_eq.
Defined.

Lemma X9_fetch_then_teardown_witness :
  save_format obj_nested = SaveFormatsEnm.CONST /\
  img_clearing obj_nested = true /\
  names_directly (img_path obj_nested) = true /\
  parts (img_path obj_nested) = ["cache"; "images"] /\
  (forall kw0 s,
      let s' := (submit kw0 s).2 in
      fs s' = fs s /\ save_format s' = save_format s /\
      img_clearing s' = img_clearing s /\ img_path s' = img_path s) /\
  let st2 := (captcha_handler fetch_ok submit (Some link) None None options
                obj_nested).2 in
  (__del__ st2).1 = Return tt /\
  fs (__del__ st2).2 !! ["cache"; "images"] = None /\
  fs (__del__ st2).2 !! ["cache"] = Some Dir /\
  fs (__del__ st2).2 !! ["examples"; "088636.png"] = Some (File png).
Proof.
  assert (Hne : names_directly (img_path obj_nested) = true) by reflexivity.
  assert (Hfree : forall (k : list string) (c : bytes),
             k <> [] -> k `prefix_of` parts (img_path obj_nested) ->
             fs obj_nested !! k <> Some (File c)).
  { intros k c Hk [rest Hpre].
    change (parts (img_path obj_nested)) with ["cache"; "images"] in Hpre.
    destruct k as [|s1 [|s2 [|s3 k]]].
    - done.
    - cbn [app] in Hpre. injection Hpre as <- _.
      intros E; vm_compute in E; discriminate E.
    - cbn [app] in Hpre. injection Hpre as <- <- _.
      intros E; vm_compute in E; discriminate E.
    - cbn [app] in Hpre. discriminate Hpre. }
  assert (Hframe : forall kw0 s,
             let s' := (submit kw0 s).2 in
             fs s' = fs s /\ save_format s' = save_format s /\
             img_clearing s' = img_clearing s /\ img_path s' = img_path s).
  { intros kw0 s. repeat split. }
  split; [reflexivity|]. split; [reflexivity|]. split; [reflexivity|].
  split; [reflexivity|]. split; [exact Hframe|].
  destruct (X9_fetch_then_teardown fetch_ok fetch_ok submit aio_submit
              (Some link) None None options link png obj_nested eq_refl
              eq_refl eq_refl eq_refl eq_refl Hne Hfree) as [Hsync _].
  { intros E; vm_compute in E; discriminate E. }
  destruct (Hsync Hframe eq_refl) as (H1 & H2 & H3 & H4).
  split; [exact H1|]. split; [apply H2; by exists []|].
  split; [apply H3; [discriminate | by exists ["images"] | discriminate]|].
  rewrite H4; [reflexivity | |].
  - intros [rest Hk]. vm_compute in Hk. discriminate Hk.
  - intros [rest Hk]. vm_compute in Hk. discriminate Hk.
Defined.

Lemma X10_error_flag_survives_witness :
  truthy_str None = None /\ truthy_bytes (Some []) = None /\ png <> [] /\
  exists st' : State,
    captcha_handler fetch_ok submit None None (Some png) options
      (captcha_handler fetch_ok submit None None (Some []) options obj_temp).2 =
      submit options st' /\
    error (result st') = true /\
    errorBody (result st') =
      PyStr "You did not send any file, local link or URL.".
Proof.
  assert (H : png <> []) by discriminate.
  split; [reflexivity|]. split; [reflexivity|]. split; [exact H|].
  destruct (X10_error_flag_survives fetch_ok fetch_ok submit aio_submit None
              None None None (Some []) png options options obj_temp eq_refl
              eq_refl eq_refl eq_refl H) as (st' & H1 & _ & H2 & H3 & _).
  exists st'. split; [exact H1|]. split; [exact H2 | exact H3].
Defined.

Lemma X12_empty_is_absent_witness :
  truthy_str (Some "") = truthy_str None /\
  truthy_bytes (Some []) = truthy_bytes None /\
  captcha_handler fetch_ok submit (Some link) (Some "") (Some []) options
    obj_const =
  captcha_handler fetch_ok submit (Some link) None None options obj_const /\
  aio_captcha_handler fetch_ok aio_submit (Some "") (Some "") (Some [])
    options obj_const =
  aio_captcha_handler fetch_ok aio_submit None None None options obj_const.
Proof.
  split; [reflexivity|]. split; [reflexivity|]. split.
  - exact (proj1 (X12_empty_is_absent fetch_ok fetch_ok submit aio_submit
                    (Some link) (Some link) (Some "") None (Some []) None
                    options obj_const eq_refl eq_refl eq_refl)).
  - exact (proj2 (X12_empty_is_absent fetch_ok fetch_ok submit aio_submit
                    (Some "") None (Some "") None (Some []) None options
                    obj_const eq_refl eq_refl eq_refl)).
Defined.

Lemma X13_second_teardown_raises_witness :
  save_format obj_cached = SaveFormatsEnm.CONST /\
  img_clearing obj_cached = true /\
  has_dotdot (img_path obj_cached) = false /\
  resolve (fs obj_cached) (img_path obj_cached) =
    Found ["PythonRuCaptchaImages"] LastNorm /\
  (__del__ obj_cached).1 = Return tt /\
  (__del__ (__del__ obj_cached).2).1 =
    Raise (FileNotFoundError "PythonRuCaptchaImages").
Proof.
  destruct (X13_second_teardown_raises ["PythonRuCaptchaImages"] obj_cached
              eq_refl eq_refl eq_refl eq_refl) as (H1 & H2 & _).
  split; [reflexivity|]. split; [reflexivity|]. split; [reflexivity|].
  split; [reflexivity|]. split; [exact H1 | exact H2].
Defined.

Lemma X14_same_side_effects_witness :
  (forall url kw st, fetch_ok url kw st = fetch_ok url kw st) /\
  (forall kw st, submit kw st = aio_submit st) /\
  captcha_handler fetch_ok submit (Some link) None None options obj_const =
  aio_captcha_handler fetch_ok aio_submit (Some link) None None options
    obj_const.
Proof.
  split; [reflexivity|]. split; [reflexivity|].
  apply (X14_same_side_effects fetch_ok fetch_ok submit aio_submit);
    reflexivity.
Defined.

(** A storage path that ends in [.]: the directory is emptied, the final
    [rmdir] is refused and the directory stays. *)
Example teardown_path_ending_in_dot_example :
  let st := obj_at "examples/." disk in
  (__del__ st).1 = Raise (OSError "examples/.") /\
  fs (__del__ st).2 !! ["examples"] = Some Dir /\
  fs (__del__ st).2 !! ["examples"; "088636.png"] = None /\
  fs (__del__ st).2 !! ["other"] = Some Dir.
Proof. cbv zeta. repeat split; vm_compute; reflexivity. Qed.

(** A storage path that goes down and up again names the directory all
    the same, and teardown removes it. *)
Example teardown_path_with_dotdot_example :
  let st := obj_at "other/../other" disk in
  os_path_exists disk "other/../other" = true /\
  (__del__ st).1 = Return tt /\
  fs (__del__ st).2 !! ["other"] = None /\
  fs (__del__ st).2 !! ["examples"; "088636.png"] = Some (File png).
Proof. cbv zeta. repeat split; vm_compute; reflexivity. Qed.

(** A regular file followed by a slash does not exist as a path, and
    cannot be opened. *)
Example file_with_trailing_slash_example :
  os_path_exists disk "examples/088636.png" = true /\
  os_path_exists disk "examples/088636.png/" = false /\
  os_path_exists disk "examples/" = true /\
  (_local_image_captcha "examples/088636.png/" obj_temp).1 =
    Raise (NotADirectoryError "examples/088636.png/") /\
  (_local_image_captcha "./examples//088636.png" obj_temp).1 = Return png.
Proof. repeat split; vm_compute; reflexivity. Qed.

(** A remote error reported by the submission collaborator comes back as
    it is. *)
Example remote_error_example :
  (captcha_handler fetch_ok submit_error None None (Some png) options
     obj_temp).1 =
  Return (dict false
            (mkResponseSer PyNone PyNone true (PyStr "ERROR_ZERO_BALANCE"))).
Proof. reflexivity. Qed.
